(** * Account controllers of the video-sharing backend

    A shallow embedding of the request handlers of the user controller
    (registration, token refresh, logout, media updates, channel profile and
    watch history), of the media uploader they call, and of the part of the
    document store and of the JavaScript value semantics they rely on.

    Handlers are functions in a state-and-exception monad over a [world]
    that holds the three collections, the local disk with the staged upload
    files, and the log of removed files.  A thrown JavaScript exception does
    not roll the world back.

    The media service, the token verifier, the token signers and the
    password hook and check of the user model are outside these sources and
    are parameters of the handlers that use them.  Strings are the UTF-8
    byte strings of the text: [trim] strips the white space of the language
    in that encoding, and [toLowerCase] is computed on ASCII text and left
    to a parameter, the case conversion of the engine, on any other. *)

From stdpp Require Import gmap strings list fin_maps.

#[local] Set Warnings "-register-all".
#[local] Open Scope string_scope.

(** ** JavaScript values *)

(** Request bodies, uploaded-file descriptors, stored documents and response
    payloads are all JavaScript values.  [VId] is an ObjectId. *)
Inductive value : Type :=
| VUndef
| VNull
| VBool (b : bool)
| VNum (n : Z)
| VStr (s : string)
| VId (n : N)
| VArr (l : list value)
| VObj (m : gmap string value).

(** A stored document and a plain object are finite maps from field names. *)
Abbreviation doc := (gmap string value).

Inductive exn : Type :=
| ApiError (statusCode : Z) (message : string)
| TypeError (message : string)
| LibError (origin : string) (message : string).

Inductive outcome (A : Type) : Type :=
| Returned (a : A)
| Thrown (e : exn).
Arguments Returned {A} a.
Arguments Thrown {A} e.

Definition obind {A B} (o : outcome A) (k : A -> outcome B) : outcome B :=
  match o with
  | Returned a => k a
  | Thrown e => Thrown e
  end.

Module JS.

(** [!v] is [negb (truthy v)]. *)
Definition truthy (v : value) : bool :=
  match v with
  | VUndef | VNull => false
  | VBool b => b
  | VNum n => negb (n =? 0)%Z
  | VStr s => negb (bool_decide (s = ""))
  | VId _ | VArr _ | VObj _ => true
  end.

Definition nullish (v : value) : bool :=
  match v with
  | VUndef | VNull => true
  | _ => false
  end.

(** [a === b] on primitives.  Two arrays or objects are compared by
    reference; the handlers never compare one with itself. *)
Definition strict_eq (a b : value) : bool :=
  match a, b with
  | VUndef, VUndef => true
  | VNull, VNull => true
  | VBool x, VBool y => bool_decide (x = y)
  | VNum x, VNum y => bool_decide (x = y)
  | VStr x, VStr y => bool_decide (x = y)
  | VId x, VId y => bool_decide (x = y)
  | _, _ => false
  end.

(** [v.k]: reading a property of [undefined] or [null] throws. *)
Definition get (v : value) (k : string) : outcome value :=
  match v with
  | VUndef | VNull =>
      Thrown (TypeError ("Cannot read properties of undefined (reading '" +:+ k +:+ "')"))
  | VObj m => Returned (default VUndef (m !! k))
  | _ => Returned VUndef
  end.

(** [v?.k] *)
Definition get_opt (v : value) (k : string) : value :=
  match v with
  | VObj m => default VUndef (m !! k)
  | _ => VUndef
  end.

(** [v[i]] *)
Definition index (v : value) (i : nat) : outcome value :=
  match v with
  | VUndef | VNull =>
      Thrown (TypeError "Cannot read properties of undefined (reading '0')")
  | VArr l => Returned (default VUndef (l !! i))
  | _ => Returned VUndef
  end.

(** [a || b] *)
Definition or_else (a b : value) : value := if truthy a then a else b.

Definition utf8 (bytes : list nat) : string :=
  foldr (fun n s => String (Stdlib.Strings.Ascii.ascii_of_nat n) s) EmptyString bytes.

(** The characters that [trim] strips, in UTF-8: the WhiteSpace and
    LineTerminator code points of the language, that is U+0009 to U+000D,
    U+0020, U+00A0, U+1680, U+2000 to U+200A, U+2028, U+2029, U+202F, U+205F,
    U+3000 and U+FEFF. *)
Definition white_space : list string :=
  utf8 <$>
    [[9]; [10]; [11]; [12]; [13]; [32]; [194; 160]; [225; 154; 128];
     [226; 128; 128]; [226; 128; 129]; [226; 128; 130]; [226; 128; 131];
     [226; 128; 132]; [226; 128; 133]; [226; 128; 134]; [226; 128; 135];
     [226; 128; 136]; [226; 128; 137]; [226; 128; 138];
     [226; 128; 168]; [226; 128; 169]; [226; 128; 175]; [226; 129; 159];
     [227; 128; 128]; [239; 187; 191]]%nat.

(** The rest of [s] behind the prefix [p]. *)
Fixpoint strip_prefix (p s : string) : option string :=
  match p, s with
  | EmptyString, _ => Some s
  | String a p', String b s' => if bool_decide (a = b) then strip_prefix p' s' else None
  | String _ _, EmptyString => None
  end.

(** The rest of [s] behind one leading character of [spaces]. *)
Definition strip_one (spaces : list string) (s : string) : option string :=
  head (omap (fun p => strip_prefix p s) spaces).

(** Every step removes a byte at least, so the length of the string is
    fuel enough. *)
Fixpoint strip_leading (spaces : list string) (fuel : nat) (s : string) : string :=
  match fuel with
  | O => s
  | S fuel' =>
      match strip_one spaces s with
      | Some r => strip_leading spaces fuel' r
      | None => s
      end
  end.

Definition trim_start (s : string) : string :=
  strip_leading white_space (String.length s) s.

Definition trim_end (s : string) : string :=
  String.rev
    (strip_leading (String.rev <$> white_space) (String.length s) (String.rev s)).

(** [String.prototype.trim] *)
Definition trim (s : string) : string := trim_end (trim_start s).

Definition lower_ascii (a : Stdlib.Strings.Ascii.ascii) : Stdlib.Strings.Ascii.ascii :=
  let n := Stdlib.Strings.Ascii.nat_of_ascii a in
  if (65 <=? n)%nat && (n <=? 90)%nat
  then Stdlib.Strings.Ascii.ascii_of_nat (n + 32) else a.

Fixpoint is_ascii (s : string) : bool :=
  match s with
  | String a r => (Stdlib.Strings.Ascii.nat_of_ascii a <? 128)%nat && is_ascii r
  | EmptyString => true
  end.

Fixpoint lower_ascii_text (s : string) : string :=
  match s with
  | String a r => String (lower_ascii a) (lower_ascii_text r)
  | EmptyString => EmptyString
  end.

Section CaseConversion.

(** [String.prototype.toLowerCase] on a text that has a character outside
    ASCII: the Unicode case conversion of the engine, with its tables and
    its context rules, which is not part of these sources. *)
Variable unicode_lower : string -> string.

(** [String.prototype.toLowerCase]: on ASCII text, A to Z become a to z. *)
Definition lower (s : string) : string :=
  if is_ascii s then lower_ascii_text s else unicode_lower s.

(** [v.toLowerCase()] *)
Definition toLowerCase (v : value) : outcome value :=
  match v with
  | VStr s => Returned (VStr (lower s))
  | VUndef | VNull =>
      Thrown (TypeError "Cannot read properties of undefined (reading 'toLowerCase')")
  | _ => Thrown (TypeError "toLowerCase is not a function")
  end.

(** [v?.toLowerCase()] *)
Definition toLowerCase_opt (v : value) : outcome value :=
  if nullish v then Returned VUndef else toLowerCase v.

End CaseConversion.

(** [field?.trim()] *)
Definition trim_opt (field : value) : outcome value :=
  match field with
  | VUndef | VNull => Returned VUndef
  | VStr s => Returned (VStr (trim s))
  | _ => Thrown (TypeError "field?.trim is not a function")
  end.

End JS.

(** ** The world and the handler monad *)

Record world : Type := World {
  users : list doc;
  subscriptions : list doc;
  videos : list doc;
  disk : gset string;
  unlinked : list string;
  next_id : N;
  clock : N
}.

Definition M (A : Type) : Type := world -> outcome A * world.

Definition ret {A} (a : A) : M A := fun w => (Returned a, w).
Definition throw {A} (e : exn) : M A := fun w => (Thrown e, w).
Definition bind {A B} (m : M A) (k : A -> M B) : M B :=
  fun w =>
    match m w with
    | (Returned a, w') => k a w'
    | (Thrown e, w') => (Thrown e, w')
    end.
Definition lift {A} (o : outcome A) : M A := fun w => (o, w).

(** [try { body } catch (error) { handler }] *)
Definition try_catch {A} (body : M A) (handler : exn -> M A) : M A :=
  fun w =>
    match body w with
    | (Returned a, w') => (Returned a, w')
    | (Thrown e, w') => handler e w'
    end.

Notation "'let*' x := m 'in' k" := (bind m (fun x => k))
  (at level 10, x name, m at level 100, k at level 200).

Definition with_disk (w : world) (d : gset string) (u : list string) : world :=
  World (users w) (subscriptions w) (videos w) d u (next_id w) (clock w).

Definition with_users (w : world) (us : list doc) (n : N) : world :=
  World us (subscriptions w) (videos w) (disk w) (unlinked w) n (clock w).

(** ** Media uploader *)

Section Uploader.

(** The remote media service: the descriptor it answers for a local file,
    or [None] when the upload is rejected. *)
Variable cloud : string -> option doc.

(** [fs.unlinkSync(path)] *)
Definition unlinkSync (path : value) : M unit :=
  fun w =>
    match path with
    | VStr p =>
        if decide (p ∈ disk w)
        then (Returned tt, with_disk w (disk w ∖ {[p]}) (unlinked w ++ [p]))
        else (Thrown (LibError "fs" "ENOENT: no such file or directory"), w)
    | _ => (Thrown (TypeError "The path argument must be of type string"), w)
    end.

(** [cloudinary.uploader.upload(path, {resource_type: "auto"})] *)
Definition cloudinary_upload (path : value) : M value :=
  fun w =>
    match path with
    | VStr p =>
        match cloud p with
        | Some r => (Returned (VObj r), w)
        | None => (Thrown (LibError "cloudinary" "upload failed"), w)
        end
    | _ => (Thrown (LibError "cloudinary" "invalid file"), w)
    end.

Definition uploadOnCloudinary (localFilePath : value) : M value :=
  try_catch
    (if negb (JS.truthy localFilePath) then ret VNull
     else
       let* response := cloudinary_upload localFilePath in
       let* _ := unlinkSync localFilePath in
       ret response)
    (fun error =>
       let* _ := unlinkSync localFilePath in
       ret VNull).

End Uploader.

(** ** Document store *)

(** The model API of the object-document mapper, at the interface the
    controllers use.  The schema file of the user model is not part of these
    sources: of the schema, the model has the password hook alone. *)
Module Store.

(** A query is sent as BSON, which has no undefined: an undefined in a
    query clause or in an aggregation expression reaches the store as
    null. *)
Definition to_bson (v : value) : value :=
  match v with
  | VUndef => VNull
  | _ => v
  end.

(** What a write stores for a value it is handed.  The mapper strips a key
    whose value is undefined, from a [$set] as from a new document: nothing
    is written for it. *)
Definition present (v : value) : option value :=
  match v with
  | VUndef => None
  | _ => Some v
  end.

Definition write (d : doc) (kv : string * value) : doc :=
  match present kv.2 with
  | Some v => <[kv.1 := v]> d
  | None => d
  end.

(** The query clause [{k: v}].  A null or undefined [v] matches the
    documents in which the field is null or missing. *)
Definition matches (k : string) (v : value) (d : doc) : bool :=
  JS.strict_eq (default VNull (d !! k)) (to_bson v).

(** [Model.findOne({$or: [{k1: v1}, {k2: v2}, ...]})] *)
Definition findOne_or (clauses : list (string * value)) (ds : list doc) : value :=
  match find (fun d => existsb (fun c => matches c.1 c.2 d) clauses) ds with
  | Some d => VObj d
  | None => VNull
  end.

Definition has_id (id : value) (d : doc) : bool := matches "_id" id d.

(** [Model.findById(id)] *)
Definition findById (id : value) (ds : list doc) : value :=
  match find (has_id id) ds with
  | Some d => VObj d
  | None => VNull
  end.

(** [query.select("-f1 -f2")] *)
Definition select_minus (fields : list string) (v : value) : value :=
  match v with
  | VObj d => VObj (foldr delete d fields)
  | _ => v
  end.

(** The first document with the given id, rewritten by [f]. *)
Fixpoint update_first (id : value) (f : doc -> doc) (ds : list doc) : list doc :=
  match ds with
  | [] => []
  | d :: rest => if has_id id d then f d :: rest else d :: update_first id f rest
  end.

Definition set_fields (sets : list (string * value)) (d : doc) : doc :=
  foldl write d sets.

(** The pre-save hook of the user model: a password that has been set is
    replaced by its hash before the document is written. *)
Definition pre_save (hashPassword : value -> value) (d : doc) : doc :=
  match d !! "password" with
  | Some p => <["password" := hashPassword p]> d
  | None => d
  end.

End Store.

(** [User.findOne({$or: ...})] *)
Definition User_findOne_or (clauses : list (string * value)) : M value :=
  fun w => (Returned (Store.findOne_or clauses (users w)), w).

(** [User.findById(id)] *)
Definition User_findById (id : value) : M value :=
  fun w => (Returned (Store.findById id (users w)), w).

(** [User.create(fields)]: the new document holds the fields that are not
    undefined, passes the pre-save hook and gets a fresh [_id]. *)
Definition User_create (hashPassword : value -> value) (fields : list (string * value)) :
    M value :=
  fun w =>
    let d :=
      <["_id" := VId (next_id w)]>
        (Store.pre_save hashPassword (Store.set_fields fields ∅)) in
    (Returned (VObj d), with_users w (users w ++ [d]) (N.succ (next_id w))).

(** [User.findByIdAndUpdate(id, {$set: sets}, {new: true})] *)
Definition User_findByIdAndUpdate (id : value) (sets : list (string * value)) : M value :=
  fun w =>
    let us := Store.update_first id (Store.set_fields sets) (users w) in
    (Returned (Store.findById id us), with_users w us (next_id w)).

(** [user.save({validateBeforeSave: false})] for a loaded document. *)
Definition User_save (user : value) : M unit :=
  fun w =>
    match user with
    | VObj d =>
        (Returned tt,
         with_users w (Store.update_first (default VNull (d !! "_id")) (fun _ => d) (users w))
           (next_id w))
    | _ => (Thrown (TypeError "user.save is not a function"), w)
    end.

(** ** Requests and responses *)

Record request : Type := Request {
  body : doc;
  files : value;
  file : value;
  cookies : doc;
  params : doc;
  user : value
}.

Record api_response : Type := ApiResponse {
  statusCode : Z;
  data : value;
  message : string;
  success : bool
}.

(** Modelled from the spec: the response envelope class (utils/ApiResponse.js)
    is not among the sources; the envelope is [{statusCode, data, message,
    success}] with [success = statusCode < 400]. *)
Definition new_ApiResponse (sc : Z) (d : value) (msg : string) : api_response :=
  ApiResponse sc d msg (sc <? 400)%Z.

Inductive cookie_op : Type :=
| SetCookie (name : string) (v : value) (httpOnly secure : bool)
| ClearCookie (name : string) (httpOnly secure : bool).

Record response : Type := Response {
  status : Z;
  cookie_ops : list cookie_op;
  json : api_response
}.

Definition field_of (o : doc) (k : string) : value := default VUndef (o !! k).

(** ** Account operations *)

Section Controllers.

Variable cloud : string -> option doc.

(** The pre-save hash of the user model and the case conversion of the
    engine outside ASCII. *)
Variable hashPassword : value -> value.
Variable unicode_lower : string -> string.

(** [jwt.verify(token, REFRESH_TOKEN_SECRET)]: the decoded payload, or
    [None] when verification throws. *)
Variable jwt_verify : string -> option doc.

(** The token methods of the user model, which sign the user's claims at
    the current time.  The model file is not part of these sources. *)
Variable generateAccessToken : doc -> N -> string.
Variable generateRefreshToken : doc -> N -> string.

(** [fields.some((field) => field?.trim() === "")] *)
Fixpoint some_blank (fields : list value) : outcome bool :=
  match fields with
  | [] => Returned false
  | field :: rest =>
      match JS.trim_opt field with
      | Thrown e => Thrown e
      | Returned t => if JS.strict_eq t (VStr "") then Returned true else some_blank rest
      end
  end.

(** [req.files?.avatar[0]?.path] *)
Definition avatar_path (fs : value) : outcome value :=
  if JS.nullish fs then Returned VUndef
  else
    obind (JS.get fs "avatar") (fun a =>
    obind (JS.index a 0) (fun f =>
    Returned (JS.get_opt f "path"))).

(** The guarded read of [req.files.coverImage[0].path]. *)
Definition coverImage_path (fs : value) : outcome value :=
  if JS.truthy fs then
    match JS.get_opt fs "coverImage" with
    | VArr (f :: _) => JS.get f "path"
    | _ => Returned VUndef
    end
  else Returned VUndef.

Definition registerUser (req : request) : M response :=
  let fullName := field_of (body req) "fullName" in
  let email := field_of (body req) "email" in
  let username := field_of (body req) "username" in
  let password := field_of (body req) "password" in
  let* blank := lift (some_blank [fullName; email; username; password]) in
  if blank : bool then throw (ApiError 400 "Please fill in all fields")
  else
    let* existedUser := User_findOne_or [("email", email); ("username", username)] in
    if JS.truthy existedUser then throw (ApiError 409 "User already exists")
    else
      let* avatarLocalPath := lift (avatar_path (files req)) in
      let* coverImageLocalPath := lift (coverImage_path (files req)) in
      if negb (JS.truthy avatarLocalPath) then throw (ApiError 400 "Please upload an avatar")
      else
        let* avatar := uploadOnCloudinary cloud avatarLocalPath in
        let* coverImage := uploadOnCloudinary cloud coverImageLocalPath in
        if negb (JS.truthy avatar) then throw (ApiError 500 "Error uploading avatar")
        else
          let* avatar_url := lift (JS.get avatar "url") in
          let cover_url := JS.or_else (JS.get_opt coverImage "url") (VStr "") in
          let* lowered := lift (JS.toLowerCase unicode_lower username) in
          let* created := User_create hashPassword
            [("fullName", fullName); ("avatar", avatar_url); ("coverImage", cover_url);
             ("email", email); ("username", lowered); ("password", password)] in
          let* found := User_findById (JS.get_opt created "_id") in
          let userCreated := Store.select_minus ["password"; "refreshToken"] found in
          if negb (JS.truthy userCreated) then throw (ApiError 500 "Error creating user")
          else
            ret (Response 201 []
                   (new_ApiResponse 200 userCreated "User created successfully")).

(** [user.generateAccessToken()] and [user.generateRefreshToken()] *)
Definition call_token_method (sign : doc -> N -> string) (u : value) : M value :=
  fun w =>
    match u with
    | VObj d => (Returned (VStr (sign d (clock w))), w)
    | VUndef | VNull =>
        (Thrown (TypeError "Cannot read properties of null"), w)
    | _ => (Thrown (TypeError "not a function"), w)
    end.

Definition generateAccessAndRefreshTokens (userId : value) : M value :=
  try_catch
    (let* u := User_findById userId in
     let* accessToken := call_token_method generateAccessToken u in
     let* refreshToken := call_token_method generateRefreshToken u in
     let u' :=
       match u with
       | VObj d => VObj (<["refreshToken" := refreshToken]> d)
       | _ => u
       end in
     let* _ := User_save u' in
     ret (VObj (<["accessToken" := accessToken]> (<["refreshToken" := refreshToken]> ∅))))
    (fun error =>
       throw (ApiError 500
                "Something went wrong while generating refresh and access tokens")).

Definition verify_refresh (token : value) : M value :=
  lift
    match token with
    | VStr t =>
        match jwt_verify t with
        | Some payload => Returned (VObj payload)
        | None => Thrown (LibError "jsonwebtoken" "invalid token")
        end
    | _ => Thrown (LibError "jsonwebtoken" "jwt must be a string")
    end.

Definition refreshAccessToken (req : request) : M response :=
  let incomingRefreshToken :=
    JS.or_else (field_of (cookies req) "refreshToken") (field_of (body req) "refreshToken") in
  if negb (JS.truthy incomingRefreshToken) then throw (ApiError 401 "Unauthorized request")
  else
    try_catch
      (let* decodedToken := verify_refresh incomingRefreshToken in
       let* u := User_findById (JS.get_opt decodedToken "_id") in
       if negb (JS.truthy u) then throw (ApiError 401 "Invalid refresh token")
       else
         let* stored := lift (JS.get u "refreshToken") in
         if negb (JS.strict_eq stored incomingRefreshToken)
         then throw (ApiError 401 "Invalid refresh token")
         else
           let* uid := lift (JS.get u "_id") in
           let* tokens := generateAccessAndRefreshTokens uid in
           let* accessToken := lift (JS.get tokens "accessToken") in
           let* newRefreshToken := lift (JS.get tokens "newRefreshToken") in
           ret (Response 200
                  [SetCookie "accessToken" accessToken true true;
                   SetCookie "refreshToken" newRefreshToken true true]
                  (new_ApiResponse 200
                     (VObj (<["accessToken" := accessToken]>
                              (<["refreshToken" := newRefreshToken]> ∅)))
                     "Access token refreshed successfully")))
      (fun error => throw (ApiError 401 "Invalid refresh token")).

Definition logoutUser (req : request) : M response :=
  let* uid := lift (JS.get (user req) "_id") in
  let* _ := User_findByIdAndUpdate uid [("refreshToken", VUndef)] in
  ret (Response 200
         [ClearCookie "accessToken" true true; ClearCookie "refreshToken" true true]
         (new_ApiResponse 200 (VObj ∅) "User logged out successfully")).

Definition updateUserAvatar (req : request) : M response :=
  let avatarLocalPath := JS.get_opt (file req) "path" in
  if negb (JS.truthy avatarLocalPath) then throw (ApiError 400 "Please upload an avatar")
  else
    let* avatar := uploadOnCloudinary cloud avatarLocalPath in
    if negb (JS.truthy avatar) then throw (ApiError 400 "Error uploading avatar")
    else
      let* uid := lift (JS.get (user req) "_id") in
      let* avatar_url := lift (JS.get avatar "url") in
      let* updated := User_findByIdAndUpdate uid [("avatar", avatar_url)] in
      ret (Response 200 []
             (new_ApiResponse 200
                (Store.select_minus ["password"; "refreshToken"] updated)
                "Avatar updated successfully")).

Definition updateUserCoverImage (req : request) : M response :=
  let coverImageLocalPath := JS.get_opt (file req) "path" in
  if negb (JS.truthy coverImageLocalPath)
  then throw (ApiError 400 "Please upload the cover image")
  else
    let* coverImage := uploadOnCloudinary cloud coverImageLocalPath in
    if negb (JS.truthy coverImage) then throw (ApiError 400 "Error uploading cover image")
    else
      let* uid := lift (JS.get (user req) "_id") in
      let* coverImage_url := lift (JS.get coverImage "url") in
      let* updated := User_findByIdAndUpdate uid [("coverImage", coverImage_url)] in
      ret (Response 200 []
             (new_ApiResponse 200
                (Store.select_minus ["password"; "refreshToken"] updated)
                "Cover image updated successfully")).

End Controllers.

(** ** Profile aggregation *)

(** The stages of the store's aggregation engine that the two read pipelines
    use.  A stage maps the stream of documents; an expression operator that
    is handed a value of the wrong kind fails the aggregation. *)
Module Aggregate.

Abbreviation stage := (list doc -> outcome (list doc)).

Fixpoint each (f : doc -> outcome doc) (ds : list doc) : outcome (list doc) :=
  match ds with
  | [] => Returned []
  | d :: rest =>
      obind (f d) (fun d' => obind (each f rest) (fun rest' => Returned (d' :: rest')))
  end.

Definition seq (s1 s2 : stage) : stage := fun ds => obind (s1 ds) s2.

(** [{$match: {k: v}}] *)
Definition match_ (k : string) (v : value) : stage :=
  fun ds => Returned (List.filter (Store.matches k v) ds).

(** The foreign documents joined to a local value: those whose foreign
    field equals it, or equals one of its elements when it is an array,
    as the foreign collection yields them. *)
Definition joined (from : list doc) (foreignField : string) (lv : value) : list doc :=
  match lv with
  | VArr elems =>
      List.filter (fun f => existsb (fun e => Store.matches foreignField e f) elems) from
  | _ => List.filter (Store.matches foreignField lv) from
  end.

(** [{$lookup: {from, localField, foreignField, as, pipeline}}] *)
Definition lookup (from : list doc) (localField foreignField as_ : string)
    (pipeline : stage) : stage :=
  each (fun d =>
    obind (pipeline (joined from foreignField (default VNull (d !! localField))))
      (fun found => Returned (<[as_ := VArr (VObj <$> found)]> d))).

(** [{$size: v}] *)
Definition size (v : value) : outcome value :=
  match v with
  | VArr l => Returned (VNum (Z.of_nat (length l)))
  | _ => Thrown (LibError "mongo" "The argument to $size must be an array")
  end.

(** The field path ["$arr.k"]: the values of field [k] in the documents of
    the array that have it. *)
Definition path_values (v : value) (k : string) : value :=
  match v with
  | VArr l =>
      VArr (omap (fun e => match e with VObj m => m !! k | _ => None end) l)
  | _ => VUndef
  end.

(** [{$in: [x, arr]}] *)
Definition in_ (x : value) (arr : value) : outcome bool :=
  match arr with
  | VArr l => Returned (existsb (JS.strict_eq (Store.to_bson x)) l)
  | _ => Thrown (LibError "mongo" "$in requires an array as a second argument")
  end.

(** [{$first: v}]: [None] is the missing value. *)
Definition first (v : value) : outcome (option value) :=
  match v with
  | VArr l => Returned (head l)
  | VUndef | VNull => Returned None
  | _ => Thrown (LibError "mongo" "$first's argument must be an array")
  end.

(** [{$project: {f1: 1, f2: 1, ...}}]: the listed fields and [_id]. *)
Definition project (fields : list string) : stage :=
  each (fun d => Returned (filter (fun kv => kv.1 ∈ "_id" :: fields) d)).

End Aggregate.

Definition channel_addFields (viewer : value) : Aggregate.stage :=
  Aggregate.each (fun d =>
    obind (Aggregate.size (field_of d "subscribers")) (fun subscriberCount =>
    obind (Aggregate.size (field_of d "subscribedTo")) (fun subscribedToCount =>
    obind (Aggregate.in_ viewer
             (Aggregate.path_values (field_of d "subscribers") "subscriber"))
      (fun isSubscribed =>
    Returned (<["isSubscribed" := VBool (if isSubscribed : bool then true else false)]>
                (<["subscribedToCount" := subscribedToCount]>
                   (<["subscriberCount" := subscriberCount]> d))))))).

(** The fields the [$project] stage of the channel pipeline keeps. *)
Definition channel_projection : list string :=
  ["fullName"; "username"; "subscribedToCount"; "subscriberCount";
   "isSubscribed"; "avatar"; "coverImage"; "email"].

Definition channel_pipeline (username viewer : value) (w : world) : Aggregate.stage :=
  Aggregate.seq (Aggregate.match_ "username" username)
    (Aggregate.seq
       (Aggregate.lookup (subscriptions w) "_id" "channel" "subscribers" Returned)
       (Aggregate.seq
          (Aggregate.lookup (subscriptions w) "_id" "subscriber" "subscribedTo" Returned)
          (Aggregate.seq (channel_addFields viewer)
             (Aggregate.project channel_projection)))).

(** [await User.aggregate(pipeline)] *)
Definition User_aggregate (pipeline : world -> Aggregate.stage) : M (list doc) :=
  fun w => (pipeline w (users w), w).

Definition getUserChannelProfile (unicode_lower : string -> string) (req : request) :
    M response :=
  let username := field_of (params req) "username" in
  if negb (JS.truthy username) then throw (ApiError 400 "Please provide a username")
  else
    let* lowered := lift (JS.toLowerCase_opt unicode_lower username) in
    let viewer := JS.get_opt (user req) "_id" in
    let* channel := User_aggregate (channel_pipeline lowered viewer) in
    match channel with
    | [] => throw (ApiError 404 "Channel not found")
    | first :: _ =>
        ret (Response 200 []
               (new_ApiResponse 200 (VObj first) "Channel profile fetched successfully"))
    end.

Definition owner_pipeline (w : world) : Aggregate.stage :=
  Aggregate.seq
    (Aggregate.lookup (users w) "owner" "_id" "owner"
       (Aggregate.project ["fullName"; "username"; "avatar"]))
    (Aggregate.each (fun d =>
       obind (Aggregate.first (field_of d "owner")) (fun o =>
       Returned match o with
                | Some x => <["owner" := x]> d
                | None => delete "owner" d
                end))).

Definition watchHistory_pipeline (id : value) (w : world) : Aggregate.stage :=
  Aggregate.seq (Aggregate.match_ "_id" id)
    (Aggregate.lookup (videos w) "watchHistory" "_id" "watchHistory" (owner_pipeline w)).

(** The query object that [User.aggregate(pipeline)] returns.  The pipeline
    runs when the object is awaited. *)
Inductive aggregate_query : Type :=
| AggregateQuery (pipeline : world -> Aggregate.stage).

(** [q[i]] on a query object that was not awaited: the object has no
    indexed property. *)
Definition query_index (q : aggregate_query) (i : nat) : value := VUndef.

(** [new mongoose.Types.ObjectId(v)]: ids are carried as [VId]; called
    with no value the constructor makes up a new id. *)
Definition new_ObjectId (v : value) : M value :=
  fun w =>
    match v with
    | VId n => (Returned (VId n), w)
    | VUndef | VNull => (Returned (VId (next_id w)), w)
    | _ => (Thrown (LibError "bson" "input must be a 24 character hex string"), w)
    end.

Definition getWatchHistory (req : request) : M response :=
  let* uid := lift (JS.get (user req) "_id") in
  let* oid := new_ObjectId uid in
  let user := AggregateQuery (watchHistory_pipeline oid) in
  let* history := lift (JS.get (query_index user 0) "watchHistory") in
  ret (Response 200 []
         (new_ApiResponse 200 history "Watch history fetched successfully")).

(** ** Routes *)

(** The request as the router hands it to the first handler of a route on
    which no middleware has run: nothing has attached a user to it. *)
Definition unauthenticated (req : request) : request :=
  Request (body req) (files req) (file req) (cookies req) (params req) VUndef.

(** [router.route("/c/:username").get(getUserChannelProfile)] *)
Definition route_channel_profile (unicode_lower : string -> string) (req : request) :
    M response :=
  getUserChannelProfile unicode_lower (unauthenticated req).

(** ** Login, password change and account details *)

Section Sessions.

(** [user.isPasswordCorrect(password)], the comparison of a candidate with
    the stored hash, and the pre-save hook that replaces a modified password
    by its hash.  Both belong to the user model, whose file is not part of
    these sources. *)
Variable isPasswordCorrect : doc -> value -> outcome bool.
Variable hashPassword : value -> value.

Variables generateAccessToken generateRefreshToken : doc -> N -> string.

Definition call_isPasswordCorrect (u : value) (password : value) : M bool :=
  lift
    match u with
    | VObj d => isPasswordCorrect d password
    | VUndef | VNull =>
        Thrown (TypeError "Cannot read properties of null (reading 'isPasswordCorrect')")
    | _ => Thrown (TypeError "user.isPasswordCorrect is not a function")
    end.

Definition loginUser (req : request) : M response :=
  let email := field_of (body req) "email" in
  let username := field_of (body req) "username" in
  let password := field_of (body req) "password" in
  if negb (JS.truthy username) && negb (JS.truthy email)
  then throw (ApiError 400 "Please provide username or email")
  else
    let* u := User_findOne_or [("username", username); ("email", email)] in
    if negb (JS.truthy u) then throw (ApiError 404 "User not found")
    else
      let* isPasswordValid := call_isPasswordCorrect u password in
      if negb isPasswordValid then throw (ApiError 401 "Invalid user creds")
      else
        let* uid := lift (JS.get u "_id") in
        let* tokens :=
          generateAccessAndRefreshTokens generateAccessToken generateRefreshToken uid in
        let* accessToken := lift (JS.get tokens "accessToken") in
        let* refreshToken := lift (JS.get tokens "refreshToken") in
        let* found := User_findById uid in
        let loggedInUser := Store.select_minus ["password"; "refreshToken"] found in
        ret (Response 200
               [SetCookie "accessToken" accessToken true true;
                SetCookie "refreshToken" refreshToken true true]
               (new_ApiResponse 200
                  (VObj (<["user" := loggedInUser]>
                           (<["accessToken" := accessToken]>
                              (<["refreshToken" := refreshToken]> ∅))))
                  "User logged in successfully")).

Definition changeCurrentPassword (req : request) : M response :=
  let oldPassword := field_of (body req) "oldPassword" in
  let newPassword := field_of (body req) "newPassword" in
  let* u := User_findById (JS.get_opt (user req) "_id") in
  let* isCorrect := call_isPasswordCorrect u oldPassword in
  if negb isCorrect then throw (ApiError 401 "Invalid old password")
  else
    let u' :=
      match u with
      | VObj d => VObj (<["password" := hashPassword newPassword]> d)
      | _ => u
      end in
    let* _ := User_save u' in
    ret (Response 200 [] (new_ApiResponse 200 (VObj ∅) "Password changed successfully")).

Definition getCurrentUser (req : request) : M response :=
  ret (Response 200 [] (new_ApiResponse 200 (user req) "Current user fetched successfully")).

Definition changeAccountDetails (req : request) : M response :=
  let fullName := field_of (body req) "fullName" in
  let email := field_of (body req) "email" in
  if negb (JS.truthy fullName) then throw (ApiError 400 "Please provide full name to update")
  else if negb (JS.truthy email) then throw (ApiError 400 "Please provide email to update")
  else
    let* updated :=
      User_findByIdAndUpdate (JS.get_opt (user req) "_id")
        [("fullName", fullName); ("email", email)] in
    ret (Response 200 []
           (new_ApiResponse 200
              (Store.select_minus ["password"; "refreshToken"] updated)
              "User details updated successfully")).

End Sessions.

(** ** The first version of the controller *)

(** [src/controllers/user.controller.js] holds the register handler alone,
    as it was before the cover-image read was guarded. *)
Module FirstController.

(** [req.files?.coverImage[0]?.path] *)
Definition coverImage_path (fs : value) : outcome value :=
  if JS.nullish fs then Returned VUndef
  else
    obind (JS.get fs "coverImage") (fun c =>
    obind (JS.index c 0) (fun f =>
    Returned (JS.get_opt f "path"))).

Definition registerUser (cloud : string -> option doc) (hashPassword : value -> value)
    (unicode_lower : string -> string) (req : request) : M response :=
  let fullName := field_of (body req) "fullName" in
  let email := field_of (body req) "email" in
  let username := field_of (body req) "username" in
  let password := field_of (body req) "password" in
  let* blank := lift (some_blank [fullName; email; username; password]) in
  if blank : bool then throw (ApiError 400 "Please fill in all fields")
  else
    let* existedUser := User_findOne_or [("email", email); ("username", username)] in
    if JS.truthy existedUser then throw (ApiError 409 "User already exists")
    else
      let* avatarLocalPath := lift (avatar_path (files req)) in
      let* coverImageLocalPath := lift (coverImage_path (files req)) in
      if negb (JS.truthy avatarLocalPath) then throw (ApiError 400 "Please upload an avatar")
      else
        let* avatar := uploadOnCloudinary cloud avatarLocalPath in
        let* coverImage := uploadOnCloudinary cloud coverImageLocalPath in
        if negb (JS.truthy avatar) then throw (ApiError 500 "Error uploading avatar")
        else
          let* avatar_url := lift (JS.get avatar "url") in
          let cover_url := JS.or_else (JS.get_opt coverImage "url") (VStr "") in
          let* lowered := lift (JS.toLowerCase unicode_lower username) in
          let* created := User_create hashPassword
            [("fullName", fullName); ("avatar", avatar_url); ("coverImage", cover_url);
             ("email", email); ("username", lowered); ("password", password)] in
          let* found := User_findById (JS.get_opt created "_id") in
          let userCreated := Store.select_minus ["password"; "refreshToken"] found in
          if negb (JS.truthy userCreated) then throw (ApiError 500 "Error creating user")
          else
            ret (Response 201 []
                   (new_ApiResponse 200 userCreated "User created successfully")).

End FirstController.

(** ** Notions used in the statements *)

Definition required_fields : list string := ["fullName"; "email"; "username"; "password"].

(** The four text fields as [registerUser] reads them from the body. *)
Definition register_fields (req : request) : list value :=
  [field_of (body req) "fullName"; field_of (body req) "email";
   field_of (body req) "username"; field_of (body req) "password"].

(** The result of the existence query of [registerUser]. *)
Definition existing_user (req : request) (w : world) : value :=
  Store.findOne_or
    [("email", field_of (body req) "email"); ("username", field_of (body req) "username")]
    (users w).

(** Whether a login request names a user, and the query it then runs. *)
Definition identified (req : request) : bool :=
  JS.truthy (field_of (body req) "username") || JS.truthy (field_of (body req) "email").

Definition login_query (req : request) (w : world) : value :=
  Store.findOne_or
    [("username", field_of (body req) "username"); ("email", field_of (body req) "email")]
    (users w).

(** The subscription edges that point at a channel, and those that leave it. *)
Definition edges_to (c : N) (w : world) : list doc :=
  List.filter (Store.matches "channel" (VId c)) (subscriptions w).

Definition edges_from (c : N) (w : world) : list doc :=
  List.filter (Store.matches "subscriber" (VId c)) (subscriptions w).

(** The document the channel pipeline makes of a matched user. *)
Definition channel_view (viewer : value) (w : world) (d : doc) : doc :=
  let lv := default VNull (d !! "_id") in
  let subscribers := Aggregate.joined (subscriptions w) "channel" lv in
  let subscribedTo := Aggregate.joined (subscriptions w) "subscriber" lv in
  filter (fun kv => kv.1 ∈ "_id" :: channel_projection)
    (<["isSubscribed" :=
         VBool (existsb (JS.strict_eq (Store.to_bson viewer))
                  (omap (fun e => match e with VObj m => m !! "subscriber" | _ => None end)
                     (VObj <$> subscribers)))]>
       (<["subscribedToCount" := VNum (Z.of_nat (length subscribedTo))]>
          (<["subscriberCount" := VNum (Z.of_nat (length subscribers))]>
             (<["subscribedTo" := VArr (VObj <$> subscribedTo)]>
                (<["subscribers" := VArr (VObj <$> subscribers)]> d))))).

(** ** A small concrete deployment *)

Module Sample.

Definition obj (l : list (string * value)) : doc := list_to_map l.

Definition alice : doc :=
  obj [("_id", VId 1); ("username", VStr "alice"); ("email", VStr "alice@example.org");
       ("fullName", VStr "Alice"); ("password", VStr "$2b$10$hash");
       ("refreshToken", VStr "refresh-1"); ("avatar", VStr "http://media/alice.png");
       ("coverImage", VStr "")].

Definition bob : doc :=
  obj [("_id", VId 2); ("username", VStr "bob"); ("email", VStr "bob@example.org");
       ("fullName", VStr "Bob"); ("password", VStr "$2b$10$other");
       ("avatar", VStr "http://media/bob.png")].

Definition staged : string := "public/temp/avatar.png".

Definition w0 : world :=
  World [alice; bob]
    [obj [("subscriber", VId 2); ("channel", VId 1)]]
    []
    {[staged]} [] 3 0.

(** A media service that accepts the staged file, and one that is down. *)
Definition cloud_up (p : string) : option doc :=
  if bool_decide (p = staged) then Some (obj [("url", VStr "http://media/new.png")])
  else None.

Definition cloud_down (p : string) : option doc := None.

Definition verify (t : string) : option doc :=
  if bool_decide (t = "refresh-1") then Some (obj [("_id", VId 1)]) else None.

Definition signAccess (d : doc) (now : N) : string := "access-2".
Definition signRefresh (d : doc) (now : N) : string := "refresh-2".

Definition carol_body : doc :=
  obj [("fullName", VStr "Carol"); ("email", VStr "carol@example.org");
       ("username", VStr "Carol"); ("password", VStr "secret")].

Definition avatar_files : value :=
  VObj (obj [("avatar", VArr [VObj (obj [("path", VStr staged)])])]).

Definition anonymous (b : doc) (fs : value) : request :=
  Request b fs VUndef ∅ ∅ VUndef.

(** A complete registration, and the same one sent as a multipart form
    that carries no avatar file. *)
Definition register_carol : request := anonymous carol_body avatar_files.
Definition register_no_avatar : request := anonymous carol_body (VObj ∅).

(** A registration that reuses a stored email. *)
Definition register_again : request :=
  anonymous (<["email" := VStr "alice@example.org"]> carol_body) avatar_files.




(** A registration whose body has no password at all. *)
Definition register_no_password : request :=
  anonymous (delete "password" carol_body) avatar_files.

Definition refresh_request : request :=
  Request ∅ VUndef VUndef (obj [("refreshToken", VStr "refresh-1")]) ∅ VUndef.

Definition as_alice (f : value) (ps : doc) : request :=
  Request ∅ VUndef f ∅ ps (VObj (foldr delete alice ["password"; "refreshToken"])).

Definition upload_request : request :=
  as_alice (VObj (obj [("path", VStr staged)])) ∅.

Definition channel_request (viewer : value) : request :=
  Request ∅ VUndef VUndef ∅ (obj [("username", VStr "Alice")]) viewer.

(** Bob, who subscribes to Alice, asks for her channel. *)
Definition bob_views_alice : request := channel_request (VObj bob).

(** An engine whose case conversion leaves the text outside ASCII as it
    is; the texts of this deployment are ASCII. *)
Definition unicode_lower (s : string) : string := s.

(** A toy password hash with the comparison that goes with it. *)
Definition hash (v : value) : value :=
  match v with
  | VStr s => VStr ("$2b$10$" +:+ s)
  | _ => VNull
  end.

Definition check (d : doc) (password : value) : outcome bool :=
  Returned (JS.strict_eq (field_of d "password") (hash password)).

(** A signer whose refresh tokens the verifier decodes to the user's id. *)
Definition signRefreshFor (d : doc) (now : N) : string :=
  match d !! "_id" with
  | Some (VId 1) => "refresh-1b"
  | _ => "refresh-x"
  end.

Definition verifyIssued (t : string) : option doc :=
  if bool_decide (t = "refresh-1") || bool_decide (t = "refresh-1b")
  then Some (obj [("_id", VId 1)]) else None.

Definition with_body (b : doc) : request := Request b VUndef VUndef ∅ ∅ VUndef.

Definition login_alice : request :=
  with_body (obj [("username", VStr "alice"); ("password", VStr "hash")]).

Definition cover_file : string := "public/temp/cover.png".

Definition w_two_files : world :=
  World [alice; bob] [] [] ({[staged]} ∪ {[cover_file]}) [] 3 0.

Definition both_files : value :=
  VObj (obj [("avatar", VArr [VObj (obj [("path", VStr staged)])]);
             ("coverImage", VArr [VObj (obj [("path", VStr cover_file)])])]).

Definition number_body : doc := <["fullName" := VNum 7]> carol_body.

Definition register_two_files : request := anonymous carol_body both_files.
Definition register_number : request := anonymous number_body avatar_files.
Definition register_no_files : request := anonymous carol_body VUndef.

Definition alice_body (b : doc) : request :=
  Request b VUndef VUndef ∅ ∅ (VObj (foldr delete alice ["password"; "refreshToken"])).

Definition with_cookie (t : string) : request :=
  Request ∅ VUndef VUndef (obj [("refreshToken", VStr t)]) ∅ VUndef.

Definition w_bob_only : world := World [bob] [] [] ∅ [] 3 0.

Definition w_rotated : world :=
  World [<["refreshToken" := VStr "refresh-9"]> alice; bob] [] [] ∅ [] 3 0.

Definition change_password : request :=
  alice_body (obj [("oldPassword", VStr "hash"); ("newPassword", VStr "fresh")]).

Definition wrong_old_password : request :=
  alice_body (obj [("oldPassword", VStr "guess"); ("newPassword", VStr "fresh")]).

Definition login_alice_fresh : request :=
  with_body (obj [("username", VStr "alice"); ("password", VStr "fresh")]).

Definition new_details : request :=
  alice_body (obj [("fullName", VStr "Alice A."); ("email", VStr "a2@example.org")]).

End Sample.

(** * Properties *)

(** ** JavaScript values *)

Lemma truthy_VStr (p : string) : p <> "" -> JS.truthy (VStr p) = true.
Proof. intros Hp. simpl. by rewrite bool_decide_eq_false_2. Qed.

Lemma strict_eq_VId (v : N) (x : value) : JS.strict_eq (VId v) x = true <-> x = VId v.
Proof.
  destruct x; simpl; split; try done.
  - intros H. apply bool_decide_eq_true_1 in H. by subst.
  - intros [= ->]. by apply bool_decide_eq_true_2.
Qed.

Lemma strict_eq_VNull (x : value) : JS.strict_eq VNull x = true <-> x = VNull.
Proof. destruct x; simpl; split; done. Qed.

Lemma strict_eq_VStr_false (x : value) (t : string) :
  x <> VStr t -> JS.strict_eq x (VStr t) = false.
Proof.
  intros Hx. destruct x; simpl; try done.
  apply bool_decide_eq_false_2. congruence.
Qed.

Lemma field_of_VStr (o : doc) (k s : string) :
  field_of o k = VStr s <-> o !! k = Some (VStr s).
Proof.
  unfold field_of. destruct (o !! k) as [v|]; simpl; split; intros H; by simplify_eq.
Qed.

Lemma get_throws v k e : JS.get v k = Thrown e -> exists m, e = TypeError m.
Proof. destruct v; simpl; intros; simplify_eq; eauto. Qed.

Lemma index_throws v i e : JS.index v i = Thrown e -> exists m, e = TypeError m.
Proof. destruct v; simpl; intros; simplify_eq; eauto. Qed.

Lemma toLowerCase_throws ul v e :
  JS.toLowerCase ul v = Thrown e -> exists m, e = TypeError m.
Proof. destruct v; simpl; intros; simplify_eq; eauto. Qed.

Lemma trim_opt_throws v e : JS.trim_opt v = Thrown e -> exists m, e = TypeError m.
Proof. destruct v; simpl; intros; simplify_eq; eauto. Qed.

Lemma strip_prefix_length (p s r : string) :
  JS.strip_prefix p s = Some r -> String.length s = String.length p + String.length r.
Proof.
  revert s. induction p as [|a p IH]; intros s; simpl.
  - by intros [= ->].
  - destruct s as [|b s]; [done|]. case_bool_decide as Hab; [|done].
    intros Hrest. simpl. by rewrite (IH s Hrest).
Qed.

Lemma strip_one_shorter (spaces : list string) (s r : string) :
  Forall (fun p => p <> "") spaces ->
  JS.strip_one spaces s = Some r -> String.length r < String.length s.
Proof.
  unfold JS.strip_one. induction 1 as [|p spaces Hp _ IH]; simpl; [done|].
  destruct (JS.strip_prefix p s) as [r'|] eqn:Hstrip; simpl; [|done].
  intros [= ->]. apply strip_prefix_length in Hstrip.
  destruct p; [done|]. simpl in Hstrip. lia.
Qed.

(** The fuel that [trim] gives is enough: what is left has no white space
    in front. *)
Lemma strip_leading_done (spaces : list string) (fuel : nat) (s : string) :
  Forall (fun p => p <> "") spaces ->
  String.length s <= fuel ->
  JS.strip_one spaces (JS.strip_leading spaces fuel s) = None.
Proof.
  intros Hspaces. revert s. induction fuel as [|fuel IH]; intros s Hlen; simpl.
  - destruct (JS.strip_one spaces s) as [r|] eqn:Hone; [|done].
    apply strip_one_shorter in Hone; [lia|done].
  - destruct (JS.strip_one spaces s) as [r|] eqn:Hone; [|done].
    apply IH. apply strip_one_shorter in Hone; [lia|done].
Qed.

Lemma white_space_nonempty : Forall (fun p => p <> "") JS.white_space.
Proof. unfold JS.white_space. repeat constructor; discriminate. Qed.

Lemma trim_start_done (s : string) : JS.strip_one JS.white_space (JS.trim_start s) = None.
Proof. apply strip_leading_done; [apply white_space_nonempty|done]. Qed.

Lemma rev_app_length (s1 s2 : string) :
  String.length (String.rev_app s1 s2) = String.length s1 + String.length s2.
Proof.
  revert s2. induction s1 as [|a s1 IH]; intros s2; simpl; [done|].
  rewrite IH. simpl. lia.
Qed.

Lemma rev_app_rev_app (s1 s2 s3 : string) :
  String.rev_app (String.rev_app s1 s2) s3 = String.rev_app s2 (s1 +:+ s3).
Proof.
  revert s2 s3. induction s1 as [|a s1 IH]; intros s2 s3; simpl; [done|].
  by rewrite IH.
Qed.

Lemma rev_rev (s : string) : String.rev (String.rev s) = s.
Proof.
  unfold String.rev. rewrite rev_app_rev_app. cbn [String.rev_app].
  induction s as [|a s IH]; [done|].
  change (String a s +:+ "") with (String a (s +:+ "")). by rewrite IH.
Qed.

Lemma trim_end_done (s : string) :
  JS.strip_one (String.rev <$> JS.white_space) (String.rev (JS.trim_end s)) = None.
Proof.
  unfold JS.trim_end. rewrite rev_rev.
  apply strip_leading_done.
  - unfold JS.white_space. repeat constructor; discriminate.
  - unfold String.rev. rewrite rev_app_length. simpl. lia.
Qed.

(** A text of no-break spaces is blank, as one of ASCII spaces is. *)
Lemma trim_no_break_space : JS.trim (JS.utf8 [194; 160; 32; 194; 160]) = "".
Proof. reflexivity. Qed.

(** ** Media uploader *)

Lemma unlinkSync_present (p : string) (w : world) :
  p ∈ disk w ->
  unlinkSync (VStr p) w = (Returned tt, with_disk w (disk w ∖ {[p]}) (unlinked w ++ [p])).
Proof. intros Hin. unfold unlinkSync. by rewrite decide_True. Qed.

Lemma uploadOnCloudinary_falsy cloud (p : value) (w : world) :
  JS.truthy p = false -> uploadOnCloudinary cloud p w = (Returned VNull, w).
Proof. intros Hp. unfold uploadOnCloudinary, try_catch. by rewrite Hp. Qed.

Lemma uploadOnCloudinary_staged cloud (p : string) (w : world) :
  p <> "" -> p ∈ disk w ->
  uploadOnCloudinary cloud (VStr p) w =
    (Returned (match cloud p with Some r => VObj r | None => VNull end),
     with_disk w (disk w ∖ {[p]}) (unlinked w ++ [p])).
Proof.
  intros Hp Hin.
  unfold uploadOnCloudinary, try_catch, bind, cloudinary_upload, ret.
  rewrite (truthy_VStr p Hp). cbn [negb].
  destruct (cloud p) as [r|]; by rewrite (unlinkSync_present p w Hin).
Qed.

Lemma uploadOnCloudinary_gone cloud (p : string) (w : world) :
  p <> "" -> p ∉ disk w ->
  uploadOnCloudinary cloud (VStr p) w =
    (Thrown (LibError "fs" "ENOENT: no such file or directory"), w).
Proof.
  intros Hp Hgone.
  unfold uploadOnCloudinary, try_catch, bind, cloudinary_upload, ret, unlinkSync.
  rewrite (truthy_VStr p Hp). cbn [negb].
  destruct (cloud p) as [r|]; by rewrite !decide_False.
Qed.

Lemma unlinkSync_not_ApiError (p : value) (w : world) c m :
  (unlinkSync p w).1 <> Thrown (ApiError c m).
Proof. unfold unlinkSync. repeat case_match; simpl; congruence. Qed.

Lemma uploadOnCloudinary_not_ApiError cloud (p : value) (w : world) c m :
  (uploadOnCloudinary cloud p w).1 <> Thrown (ApiError c m).
Proof.
  unfold uploadOnCloudinary, try_catch, bind, ret, cloudinary_upload, unlinkSync.
  repeat case_match; simplify_eq/=; congruence.
Qed.

Lemma uploadOnCloudinary_keeps_users cloud (p : value) (w : world) :
  users (uploadOnCloudinary cloud p w).2 = users w /\
  next_id (uploadOnCloudinary cloud p w).2 = next_id w.
Proof.
  unfold uploadOnCloudinary, try_catch, bind, ret, cloudinary_upload, unlinkSync.
  repeat case_match; simplify_eq/=; done.
Qed.




(** ** Store queries and updates *)

Lemma findOne_or_truthy (clauses : list (string * value)) (ds : list doc) (u : doc) :
  u ∈ ds ->
  existsb (fun c => Store.matches c.1 c.2 u) clauses = true ->
  JS.truthy (Store.findOne_or clauses ds) = true.
Proof.
  intros Hin Hmatch. unfold Store.findOne_or.
  destruct (find _ ds) as [d|] eqn:Hfind; [done|].
  apply list_elem_of_In in Hin.
  pose proof (find_none _ _ Hfind u Hin) as Hnone. simpl in Hnone. congruence.
Qed.

Lemma matches_stored_string (k s : string) (u : doc) :
  u !! k = Some (VStr s) -> Store.matches k (VStr s) u = true.
Proof. intros Hu. unfold Store.matches. rewrite Hu. simpl. by apply bool_decide_eq_true_2. Qed.

Lemma select_minus_lookup (found : value) (d : doc) :
  Store.select_minus ["password"; "refreshToken"] found = VObj d ->
  d !! "password" = None /\ d !! "refreshToken" = None.
Proof.
  destruct found; simpl; intros H; simplify_eq.
  split; [apply lookup_delete_eq|].
  rewrite lookup_delete_ne by done. apply lookup_delete_eq.
Qed.

Lemma has_id_VId (uid : N) (d : doc) :
  Store.has_id (VId uid) d = true <-> d !! "_id" = Some (VId uid).
Proof.
  unfold Store.has_id, Store.matches. simpl. split.
  - destruct (d !! "_id") as [[]|]; simpl; try done.
    intros H. apply bool_decide_eq_true_1 in H. by subst.
  - intros ->. simpl. by apply bool_decide_eq_true_2.
Qed.

Lemma findById_VObj (id : value) (ds : list doc) (d : doc) :
  Store.findById id ds = VObj d <-> find (Store.has_id id) ds = Some d.
Proof.
  unfold Store.findById. destruct (find _ ds); split; intros H; by simplify_eq.
Qed.

Lemma find_has_id (id : value) (ds : list doc) (d : doc) :
  find (Store.has_id id) ds = Some d -> Store.has_id id d = true.
Proof. intros H. by apply find_some in H as [_ ?]. Qed.

(** Updating the first record with an id rewrites that record in place and
    no other. *)
Lemma update_first_split (id : value) (f : doc -> doc) (ds : list doc) (d : doc) :
  find (Store.has_id id) ds = Some d ->
  exists l1 l2, ds = (l1 ++ d :: l2)%list /\
    Store.update_first id f ds = (l1 ++ f d :: l2)%list.
Proof.
  induction ds as [|x rest IH]; simpl; [done|].
  destruct (Store.has_id id x) eqn:Hx.
  - intros [= ->]. by exists [], rest.
  - intros Hfind. destruct (IH Hfind) as (l1 & l2 & -> & Hup).
    exists (x :: l1), l2. simpl. by rewrite Hup.
Qed.

Lemma find_update_first (id : value) (f : doc -> doc) (ds : list doc) (d : doc) :
  Store.has_id id (f d) = true ->
  find (Store.has_id id) ds = Some d ->
  find (Store.has_id id) (Store.update_first id f ds) = Some (f d).
Proof.
  intros Hf. induction ds as [|x rest IH]; simpl; [done|].
  destruct (Store.has_id id x) eqn:Hx.
  - intros [= ->]. simpl. by rewrite Hf.
  - intros Hfind. simpl. rewrite Hx. by apply IH.
Qed.

(** A write touches the key it names and no other, and touches nothing
    when the value is undefined. *)
Lemma write_lookup_ne (d : doc) (k k' : string) (v : value) :
  k <> k' -> Store.write d (k, v) !! k' = d !! k'.
Proof.
  intros Hk. unfold Store.write. destruct (Store.present _); [|done].
  by apply lookup_insert_ne.
Qed.

Lemma write_lookup_eq (d : doc) (k : string) (v : value) :
  Store.write d (k, v) !! k = from_option Some (d !! k) (Store.present v).
Proof.
  unfold Store.write. destruct (Store.present _); simpl; [|done].
  by apply lookup_insert_eq.
Qed.

Lemma write_undefined (d : doc) (k : string) : Store.write d (k, VUndef) = d.
Proof. reflexivity. Qed.

Lemma write_defined (d : doc) (k : string) (v : value) :
  v <> VUndef -> Store.write d (k, v) = <[k := v]> d.
Proof. intros Hv. by destruct v. Qed.


Lemma pre_save_lookup_ne (h : value -> value) (d : doc) (k : string) :
  k <> "password" -> Store.pre_save h d !! k = d !! k.
Proof.
  intros Hk. unfold Store.pre_save. destruct (d !! "password"); [|done].
  by apply lookup_insert_ne.
Qed.

Lemma pre_save_password (h : value -> value) (d : doc) :
  Store.pre_save h d !! "password" = h <$> d !! "password".
Proof.
  unfold Store.pre_save. destruct (d !! "password") as [x|] eqn:Hd; simpl.
  - by rewrite lookup_insert_eq.
  - by rewrite Hd.
Qed.

Lemma present_or_absent (v : value) : from_option Some None (Store.present v) = Store.present v.
Proof. by destruct v. Qed.

(** A lookup in a record that a chain of writes has built. *)
Ltac lookup_written :=
  unfold Store.set_fields; cbn [foldl];
  repeat first
    [ rewrite lookup_insert_eq
    | rewrite lookup_insert_ne by done
    | rewrite pre_save_lookup_ne by done
    | rewrite pre_save_password
    | rewrite write_lookup_ne by done
    | rewrite write_lookup_eq
    | rewrite lookup_empty
    | rewrite present_or_absent ].

Lemma set_one_field (k : string) (v : value) (d : doc) :
  Store.set_fields [(k, v)] d = Store.write d (k, v).
Proof. reflexivity. Qed.

Lemma update_first_same (id : value) (f : doc -> doc) (ds : list doc) :
  (forall d, f d = d) -> Store.update_first id f ds = ds.
Proof.
  intros Hf. induction ds as [|x rest IH]; simpl; [done|].
  destruct (Store.has_id id x); by rewrite ?Hf, ?IH.
Qed.

Lemma with_users_same (w : world) : with_users w (users w) (next_id w) = w.
Proof. by destruct w. Qed.

(** What [findByIdAndUpdate(id, {$set: {k: v}})] does to a stored record. *)
Lemma findByIdAndUpdate_one (uid : N) (k : string) (v : value) (w : world) (d : doc) :
  k <> "_id" ->
  Store.findById (VId uid) (users w) = VObj d ->
  let d' := Store.write d (k, v) in
  exists l1 l2,
    users w = (l1 ++ d :: l2)%list /\
    User_findByIdAndUpdate (VId uid) [(k, v)] w =
      (Returned (VObj d'), with_users w (l1 ++ d' :: l2)%list (next_id w)) /\
    Store.findById (VId uid) (l1 ++ d' :: l2)%list = VObj d'.
Proof.
  intros Hk Hfind d'. apply findById_VObj in Hfind.
  assert (Hid : Store.has_id (VId uid) d' = true).
  { apply has_id_VId. unfold d'. rewrite write_lookup_ne by done.
    by apply has_id_VId, (find_has_id _ (users w)). }
  destruct (update_first_split (VId uid) (Store.set_fields [(k, v)]) _ _ Hfind)
    as (l1 & l2 & Hsplit & Hup).
  pose proof (find_update_first (VId uid) (Store.set_fields [(k, v)]) _ _ Hid Hfind) as Hnew.
  rewrite set_one_field in Hup, Hnew. fold d' in Hup, Hnew.
  exists l1, l2. split; [done|]. unfold User_findByIdAndUpdate.
  rewrite Hup in *. split; [|by apply findById_VObj].
  f_equal. f_equal. by apply findById_VObj.
Qed.

(** ** Registration *)

Lemma some_blank_textual (fields : list value) :
  Forall (fun v => v = VUndef \/ exists s, v = VStr s) fields ->
  exists b, some_blank fields = Returned b /\
    (b = true <-> exists s, VStr s ∈ fields /\ JS.trim s = "").
Proof.
  induction 1 as [|v rest Hv _ IH].
  - exists false. split; [done|]. split; [done|]. intros (s & Hin & _). by apply elem_of_nil in Hin.
  - destruct IH as (b & Hb & Hiff). destruct Hv as [->|[s ->]].
    + exists b. split; [done|]. rewrite Hiff. split.
      * intros (s & Hin & Hs). exists s. split; [by right|done].
      * intros (s & Hin & Hs). exists s. split; [|done].
        apply elem_of_cons in Hin as [?|?]; [done|done].
    + simpl. case_bool_decide as Hs.
      * exists true. split; [done|]. split; [|done]. intros _.
        exists s. split; [by left|done].
      * exists b. split; [done|]. rewrite Hiff. split.
        -- intros (s' & Hin & Hs'). exists s'. split; [by right|done].
        -- intros (s' & Hin & Hs'). exists s'. split; [|done].
           apply elem_of_cons in Hin as [Heq|?]; [|done].
           by simplify_eq.
Qed.

Lemma some_blank_false_textual (fields : list value) :
  some_blank fields = Returned false ->
  Forall (fun v => JS.strict_eq (Store.to_bson v) (Store.to_bson v) = true) fields.
Proof.
  induction fields as [|v rest IH]; simpl; [done|].
  destruct (JS.trim_opt v) as [t|e] eqn:Htrim; [|done].
  destruct (JS.strict_eq t (VStr "")); [done|].
  intros Hrest. constructor; [|by apply IH].
  destruct v; simpl in *; try done. by apply bool_decide_eq_true_2.
Qed.

Lemma register_fields_fmap (req : request) :
  register_fields req = field_of (body req) <$> required_fields.
Proof. reflexivity. Qed.

Lemma avatar_path_throws fs e : avatar_path fs = Thrown e -> exists m, e = TypeError m.
Proof.
  unfold avatar_path, obind. destruct (JS.nullish fs); [done|].
  destruct (JS.get fs "avatar") as [a|e1] eqn:Hget.
  - destruct (JS.index a 0) as [f|e2] eqn:Hidx; [done|].
    intros [= <-]. by eapply index_throws.
  - intros [= <-]. by eapply get_throws.
Qed.

Lemma coverImage_path_throws fs e : coverImage_path fs = Thrown e -> exists m, e = TypeError m.
Proof.
  unfold coverImage_path. destruct (JS.truthy fs); [|done].
  destruct (JS.get_opt fs "coverImage") as [| | | | | |[|f l]|]; try done.
  apply get_throws.
Qed.

Lemma avatar_path_staged (fs f : doc) (rest : list value) (p : string) :
  fs !! "avatar" = Some (VArr (VObj f :: rest)) ->
  f !! "path" = Some (VStr p) ->
  avatar_path (VObj fs) = Returned (VStr p).
Proof.
  intros Hfs Hf. unfold avatar_path, obind. cbn [JS.nullish JS.get]. rewrite Hfs.
  cbn [default from_option id JS.index lookup list_lookup JS.get_opt]. by rewrite Hf.
Qed.

Lemma coverImage_path_none (fs : doc) :
  fs !! "coverImage" = None -> coverImage_path (VObj fs) = Returned VUndef.
Proof. intros Hfs. unfold coverImage_path. cbn [JS.truthy JS.get_opt]. by rewrite Hfs. Qed.


Lemma findById_last (id : value) (l : list doc) (d : doc) :
  Store.has_id id d = true -> exists d0, Store.findById id (l ++ [d]) = VObj d0.
Proof.
  intros Hd. unfold Store.findById.
  destruct (find (Store.has_id id) (l ++ [d])) as [d0|] eqn:Hfind; [by eexists|].
  assert (Hin : In d (l ++ [d])) by (apply in_or_app; right; by left).
  pose proof (find_none _ _ Hfind d Hin). congruence.
Qed.

Ltac type_errors :=
  repeat match goal with
    | H : JS.get _ _ = Thrown _ |- _ => apply get_throws in H as [? ->]
    | H : JS.index _ _ = Thrown _ |- _ => apply index_throws in H as [? ->]
    | H : JS.toLowerCase _ _ = Thrown _ |- _ => apply toLowerCase_throws in H as [? ->]
    | H : JS.trim_opt _ = Thrown _ |- _ => apply trim_opt_throws in H as [? ->]
    | H : avatar_path _ = Thrown _ |- _ => apply avatar_path_throws in H as [? ->]
    | H : coverImage_path _ = Thrown _ |- _ => apply coverImage_path_throws in H as [? ->]
    end.

Section RegisterFacts.

Variable cloud : string -> option doc.
Variable hashPassword : value -> value.
Variable unicode_lower : string -> string.
Implicit Types (req : request) (w : world).

Lemma registerUser_blank req w :
  some_blank (register_fields req) = Returned true ->
  registerUser cloud hashPassword unicode_lower req w
    = (Thrown (ApiError 400 "Please fill in all fields"), w).
Proof. intros H. unfold registerUser, bind, lift. unfold register_fields in H. by rewrite H. Qed.

Lemma registerUser_validation_throws req w e :
  some_blank (register_fields req) = Thrown e ->
  registerUser cloud hashPassword unicode_lower req w = (Thrown e, w).
Proof. intros H. unfold registerUser, bind, lift. unfold register_fields in H. by rewrite H. Qed.

Lemma registerUser_conflict req w :
  some_blank (register_fields req) = Returned false ->
  JS.truthy (existing_user req w) = true ->
  registerUser cloud hashPassword unicode_lower req w
    = (Thrown (ApiError 409 "User already exists"), w).
Proof.
  intros H Hex. unfold registerUser, bind, lift, User_findOne_or.
  unfold register_fields in H. rewrite H.
  unfold existing_user in Hex. by rewrite Hex.
Qed.

Lemma registerUser_past_validation req w :
  some_blank (register_fields req) = Returned false ->
  (registerUser cloud hashPassword unicode_lower req w).1
    <> Thrown (ApiError 400 "Please fill in all fields").
Proof.
  intros H. unfold registerUser, bind, lift, User_findOne_or, throw, ret, User_create,
    User_findById.
  unfold register_fields in H. rewrite H.
  repeat
    match goal with
    | |- context [uploadOnCloudinary ?c ?p ?w0] =>
        pose proof (uploadOnCloudinary_not_ApiError c p w0 400 "Please fill in all fields");
        destruct (uploadOnCloudinary c p w0) as [[?|?] ?]; simpl in *
    | |- _ => case_match
    end; simpl; try congruence.
  all: type_errors; congruence.
Qed.

(** X7. A registration that passes the validation and the existence check
    and arrives with no uploaded-files object at all is rejected with 400
    "Please upload an avatar", and nothing is changed. *)
Lemma registerUser_no_files req w :
  some_blank (register_fields req) = Returned false ->
  JS.truthy (existing_user req w) = false ->
  JS.nullish (files req) = true ->
  registerUser cloud hashPassword unicode_lower req w
    = (Thrown (ApiError 400 "Please upload an avatar"), w).
Proof.
  intros H Hex Hfs. unfold registerUser, bind, lift, User_findOne_or.
  unfold register_fields in H. rewrite H.
  unfold existing_user in Hex. rewrite Hex.
  unfold avatar_path, coverImage_path. rewrite Hfs.
  by destruct (files req).
Qed.

Lemma registerUser_returns req w resp w' :
  registerUser cloud hashPassword unicode_lower req w = (Returned resp, w') ->
  exists id ds,
    let found := Store.findById id ds in
    JS.truthy (Store.select_minus ["password"; "refreshToken"] found) = true /\
    resp = Response 201 []
             (new_ApiResponse 200 (Store.select_minus ["password"; "refreshToken"] found)
                "User created successfully").
Proof.
  unfold registerUser, bind, lift, User_findOne_or, throw, ret, User_create, User_findById.
  intros H.
  repeat
    match type of H with
    | context [uploadOnCloudinary ?c ?p ?w0] =>
        destruct (uploadOnCloudinary c p w0) as [[?|?] ?]; simpl in H
    | context [match ?x with _ => _ end] => destruct x eqn:?; simpl in H
    end; try discriminate.
  injection H as <- <-. eexists _, _. split; [|done].
  by apply negb_false_iff.
Qed.

End RegisterFacts.

(** C10. On a request whose required text fields are each either absent or
    a string, the empty-field validation of the register operation answers
    BadRequest exactly when some field that is present is empty after
    trimming: an absent field never triggers it. *)
Theorem registerUser_absent_field_not_rejected cloud hashPassword unicode_lower
    (req : request) (w : world) :
  (forall k, k ∈ required_fields ->
     body req !! k = None \/ exists s, body req !! k = Some (VStr s)) ->
  (registerUser cloud hashPassword unicode_lower req w).1
    = Thrown (ApiError 400 "Please fill in all fields")
  <-> exists k s, k ∈ required_fields /\ body req !! k = Some (VStr s) /\ JS.trim s = "".
Proof.
  intros Htext.
  destruct (some_blank_textual (register_fields req)) as (b & Hb & Hiff).
  { rewrite register_fields_fmap. apply Forall_fmap, Forall_forall.
    intros k Hk. simpl. destruct (Htext k Hk) as [Hnone|[s Hs]].
    - left. unfold field_of. by rewrite Hnone.
    - right. exists s. by apply field_of_VStr. }
  assert (Hpresent : b = true <->
    exists k s, k ∈ required_fields /\ body req !! k = Some (VStr s) /\ JS.trim s = "").
  { rewrite Hiff, register_fields_fmap. split.
    - intros (s & Hin & Hs). apply list_elem_of_fmap in Hin as (k & Hk & Hin).
      exists k, s. split; [done|]. split; [|done]. by apply field_of_VStr.
    - intros (k & s & Hk & Hlook & Hs). exists s. split; [|done].
      apply list_elem_of_fmap. exists k. split; [|done]. symmetry. by apply field_of_VStr. }
  rewrite <- Hpresent. destruct b.
  - by rewrite (registerUser_blank cloud hashPassword unicode_lower req w Hb).
  - split; [|done]. intros Hthrown.
    by destruct (registerUser_past_validation cloud hashPassword unicode_lower req w Hb).
Qed.

Lemma registerUser_absent_field_not_rejected_witness :
  (registerUser Sample.cloud_up Sample.hash Sample.unicode_lower Sample.register_no_password
      Sample.w0).1
    = Thrown (ApiError 400 "Please fill in all fields")
  <-> exists k s, k ∈ required_fields /\
        body Sample.register_no_password !! k = Some (VStr s) /\ JS.trim s = "".
Proof.
  apply (registerUser_absent_field_not_rejected Sample.cloud_up Sample.hash Sample.unicode_lower
           Sample.register_no_password
           Sample.w0).
  intros k Hk. unfold required_fields in Hk.
  repeat (apply elem_of_cons in Hk as [->|Hk]); [right|right|right|left|].
  - by exists "Carol".
  - by exists "carol@example.org".
  - by exists "Carol".
  - reflexivity.
  - by apply elem_of_nil in Hk.
Defined.

(** C5. A registration whose text fields pass the validation, whose email
    and username match no stored user, and whose uploaded-files object has
    no avatar entry does not reach the avatar check: reading element 0 of the
    missing entry throws a TypeError instead of the BadRequest. *)
Theorem registerUser_missing_avatar_throws_TypeError cloud hashPassword unicode_lower
    (req : request) (w : world) (fs : doc) :
  some_blank (register_fields req) = Returned false ->
  JS.truthy (existing_user req w) = false ->
  files req = VObj fs ->
  fs !! "avatar" = None ->
  registerUser cloud hashPassword unicode_lower req w =
    (Thrown (TypeError "Cannot read properties of undefined (reading '0')"), w).
Proof.
  intros Hvalid Hfresh Hfiles Havatar.
  unfold registerUser, bind, lift, User_findOne_or.
  unfold register_fields in Hvalid. rewrite Hvalid.
  unfold existing_user in Hfresh. rewrite Hfresh.
  rewrite Hfiles. unfold avatar_path, obind. cbn [JS.nullish JS.get].
  rewrite Havatar. reflexivity.
Qed.

Lemma registerUser_missing_avatar_throws_TypeError_witness :
  registerUser Sample.cloud_up Sample.hash Sample.unicode_lower Sample.register_no_avatar
      Sample.w0 =
    (Thrown (TypeError "Cannot read properties of undefined (reading '0')"), Sample.w0).
Proof.
  apply (registerUser_missing_avatar_throws_TypeError Sample.cloud_up Sample.hash
           Sample.unicode_lower
           Sample.register_no_avatar Sample.w0 ∅); reflexivity.
Defined.

(** In a store that holds a user with a given email or username, a
    registration that passes the field validation and carries that email, or
    that username byte for byte, is answered with Conflict, and the world,
    the user collection included, is left as it was: no record is created. *)
Lemma registerUser_existing_identity_conflict cloud hashPassword unicode_lower
    (req : request) (w : world) (u : doc) :
  some_blank (register_fields req) = Returned false ->
  u ∈ users w ->
  (exists e, body req !! "email" = Some (VStr e) /\ u !! "email" = Some (VStr e)) \/
  (exists n, body req !! "username" = Some (VStr n) /\ u !! "username" = Some (VStr n)) ->
  registerUser cloud hashPassword unicode_lower req w
    = (Thrown (ApiError 409 "User already exists"), w).
Proof.
  intros Hvalid Hin Hsame. apply registerUser_conflict; [done|].
  unfold existing_user. apply (findOne_or_truthy _ _ u Hin).
  cbn [existsb fst snd]. apply orb_true_iff.
  destruct Hsame as [(e & Hreq & Hu)|(n & Hreq & Hu)].
  - left. apply field_of_VStr in Hreq. rewrite Hreq. by apply matches_stored_string.
  - right. apply orb_true_iff. left.
    apply field_of_VStr in Hreq. rewrite Hreq. by apply matches_stored_string.
Qed.

Lemma registerUser_existing_identity_conflict_witness :
  registerUser Sample.cloud_up Sample.hash Sample.unicode_lower Sample.register_again Sample.w0 =
    (Thrown (ApiError 409 "User already exists"), Sample.w0).
Proof.
  apply (registerUser_existing_identity_conflict Sample.cloud_up Sample.hash
           Sample.unicode_lower Sample.register_again
           Sample.w0 Sample.alice).
  - reflexivity.
  - apply elem_of_cons. by left.
  - left. by exists "alice@example.org".
Defined.



(** C9. Whenever the register operation succeeds, the record it returns
    has neither a password field nor a refresh-token field. *)
Theorem registerUser_returns_sanitized_record cloud hashPassword unicode_lower
    (req : request) (w w' : world) (resp : response) :
  registerUser cloud hashPassword unicode_lower req w = (Returned resp, w') ->
  status resp = 201%Z /\
  exists d, data (json resp) = VObj d /\
    d !! "password" = None /\ d !! "refreshToken" = None.
Proof.
  intros Hrun. apply registerUser_returns in Hrun as (id & ds & Htruthy & ->).
  split; [done|]. simpl. unfold Store.findById in *.
  destruct (find (Store.has_id id) ds) as [d|]; [|done].
  eexists. split; [done|]. by apply (select_minus_lookup (VObj d)).
Qed.

Lemma registerUser_returns_sanitized_record_witness :
  match registerUser Sample.cloud_up Sample.hash Sample.unicode_lower Sample.register_carol
        Sample.w0 with
  | (Returned resp, _) =>
      status resp = 201%Z /\
      exists d, data (json resp) = VObj d /\
        d !! "password" = None /\ d !! "refreshToken" = None
  | (Thrown _, _) => False
  end.
Proof.
  destruct (registerUser Sample.cloud_up Sample.hash Sample.unicode_lower Sample.register_carol
            Sample.w0)
    as [[resp|e] w'] eqn:Hrun.
  - exact (registerUser_returns_sanitized_record _ _ _ _ _ _ _ Hrun).
  - vm_compute in Hrun. discriminate Hrun.
Defined.

Lemma registerUser_created cloud hashPassword unicode_lower (req : request) (w w' : world)
    (resp : response) :
  registerUser cloud hashPassword unicode_lower req w = (Returned resp, w') ->
  some_blank (register_fields req) = Returned false /\
  JS.truthy (existing_user req w) = false /\
  exists d, users w' = (users w ++ [d])%list /\
    d !! "email" = Store.present (field_of (body req) "email").
Proof.
  unfold registerUser, bind, lift, User_findOne_or, throw, ret, User_create, User_findById.
  fold (register_fields req). fold (existing_user req w).
  intros H.
  repeat (cbv beta iota zeta in H;
          match type of H with
          | context [match ?x with _ => _ end] => destruct x eqn:?
          end; try discriminate H).
  injection H as _ <-.
  destruct (uploadOnCloudinary_keeps_users cloud a0 w) as [Hu0 _].
  destruct (uploadOnCloudinary_keeps_users cloud a1 w0) as [Hu1 _].
  rewrite Heqp in Hu0. rewrite Heqp0 in Hu1. simpl in Hu0, Hu1.
  split; [done|]. split; [done|].
  eexists. split.
  - simpl. by rewrite Hu1, Hu0.
  - by lookup_written.
Qed.

(** X6. Registration is rejecting on replay: once a registration has succeeded,
    the same request sent again is answered with Conflict and creates
    nothing, whatever the media service does. *)
Lemma registerUser_twice_conflict cloud cloud' hashPassword unicode_lower (req : request)
    (w w' : world) (resp : response) :
  registerUser cloud hashPassword unicode_lower req w = (Returned resp, w') ->
  registerUser cloud' hashPassword unicode_lower req w'
    = (Thrown (ApiError 409 "User already exists"), w').
Proof.
  intros Hfirst.
  apply registerUser_created in Hfirst as (Hvalid & _ & d & Husers & Hemail).
  apply registerUser_conflict; [done|].
  unfold existing_user. apply (findOne_or_truthy _ _ d).
  { rewrite Husers. apply elem_of_app. right. by apply list_elem_of_singleton. }
  cbn [existsb fst snd]. apply orb_true_iff. left.
  unfold Store.matches. rewrite Hemail.
  apply some_blank_false_textual in Hvalid. unfold register_fields in Hvalid.
  apply Forall_cons in Hvalid as [_ [Hself _]%Forall_cons].
  by destruct (field_of (body req) "email").
Qed.

(** ** Logout *)

(** The update that logout asks for names one key, and the value it gives
    for it is undefined: the mapper strips the key and the update writes
    nothing. *)
Lemma logoutUser_run (req : request) (w : world) (u : doc) :
  user req = VObj u ->
  logoutUser req w =
    (Returned (Response 200
                 [ClearCookie "accessToken" true true; ClearCookie "refreshToken" true true]
                 (new_ApiResponse 200 (VObj ∅) "User logged out successfully")), w).
Proof.
  intros Hreq. unfold logoutUser, bind, lift, ret, User_findByIdAndUpdate.
  rewrite Hreq. cbn [JS.get]. rewrite update_first_same by done.
  by rewrite with_users_same.
Qed.

Lemma logoutUser_keeps_world (req : request) (w : world) : (logoutUser req w).2 = w.
Proof.
  unfold logoutUser, bind, lift, ret, User_findByIdAndUpdate.
  destruct (JS.get (user req) "_id") as [uid|e]; [|done].
  rewrite update_first_same by done. cbn [snd]. apply with_users_same.
Qed.

(** C3. For an authenticated user whose record holds a refresh token,
    logout answers 200 and clears the accessToken and the refreshToken
    cookie, but it does not clear the stored token: the update sets the
    refresh-token field to undefined, the mapper strips that key, nothing is
    written, and the record still holds the token it held before. *)
Theorem logoutUser_keeps_refresh_token (req : request) (w : world) (u d : doc) (uid : N)
    (t : string) :
  user req = VObj u ->
  u !! "_id" = Some (VId uid) ->
  Store.findById (VId uid) (users w) = VObj d ->
  d !! "refreshToken" = Some (VStr t) ->
  let (result, w') := logoutUser req w in
  (exists resp, result = Returned resp /\ status resp = 200%Z /\
     cookie_ops resp =
       [ClearCookie "accessToken" true true; ClearCookie "refreshToken" true true]) /\
  users w' = users w /\
  exists d', Store.findById (VId uid) (users w') = VObj d' /\
    d' !! "refreshToken" = Some (VStr t).
Proof.
  intros Hreq Hid Hfind Htoken. rewrite (logoutUser_run req w u Hreq).
  split; [by eexists|]. split; [done|]. by exists d.
Qed.

Lemma logoutUser_keeps_refresh_token_witness :
  let (result, w') := logoutUser (Sample.as_alice VUndef ∅) Sample.w0 in
  (exists resp, result = Returned resp /\ status resp = 200%Z /\
     cookie_ops resp =
       [ClearCookie "accessToken" true true; ClearCookie "refreshToken" true true]) /\
  users w' = users Sample.w0 /\
  exists d', Store.findById (VId 1) (users w') = VObj d' /\
    d' !! "refreshToken" = Some (VStr "refresh-1").
Proof.
  apply (logoutUser_keeps_refresh_token (Sample.as_alice VUndef ∅) Sample.w0
           (foldr delete Sample.alice ["password"; "refreshToken"]) Sample.alice 1
           "refresh-1");
    reflexivity.
Defined.

(** ** Token refresh *)

Section Refresh.

Variable jwt_verify : string -> option doc.
Variables generateAccessToken generateRefreshToken : doc -> N -> string.

Lemma generateAccessAndRefreshTokens_found (uid : N) (w : world) (u : doc) :
  Store.findById (VId uid) (users w) = VObj u ->
  let access := VStr (generateAccessToken u (clock w)) in
  let refresh := VStr (generateRefreshToken u (clock w)) in
  let u' := <["refreshToken" := refresh]> u in
  exists l1 l2,
    users w = (l1 ++ u :: l2)%list /\
    generateAccessAndRefreshTokens generateAccessToken generateRefreshToken (VId uid) w =
      (Returned (VObj (<["accessToken" := access]> (<["refreshToken" := refresh]> ∅))),
       with_users w (l1 ++ u' :: l2)%list (next_id w)) /\
    Store.findById (VId uid) (l1 ++ u' :: l2)%list = VObj u'.
Proof.
  intros Hfind access refresh u'.
  pose proof Hfind as Hfind'. apply findById_VObj in Hfind'.
  assert (Hu : u !! "_id" = Some (VId uid)) by by apply has_id_VId, (find_has_id _ (users w)).
  assert (Hu' : Store.has_id (VId uid) u' = true).
  { apply has_id_VId. unfold u'. by rewrite lookup_insert_ne. }
  destruct (update_first_split (VId uid) (fun _ => u') _ _ Hfind') as (l1 & l2 & Hw & Hup).
  pose proof (find_update_first (VId uid) (fun _ => u') _ _ Hu' Hfind') as Hnew.
  rewrite Hup in Hnew.
  exists l1, l2. split; [done|]. split; [|by apply findById_VObj].
  unfold generateAccessAndRefreshTokens, try_catch, bind, User_findById, call_token_method,
    User_save, ret.
  rewrite Hfind. fold access refresh u'.
  replace (default VNull (u' !! "_id")) with (VId uid).
  2: { unfold u'. by rewrite lookup_insert_ne, Hu. }
  by rewrite Hup.
Qed.

(** C1. A refresh with the stored token of a user succeeds and persists a
    freshly signed refresh token on the user's record, but the response
    does not carry that token: the handler reads it from a property the
    token pair does not have, so the refreshToken cookie and the
    refreshToken field of the body are both undefined.  Only the new
    access token reaches the caller. *)
Theorem refreshAccessToken_loses_new_refresh_token (req : request) (w : world)
    (t : string) (payload u : doc) (uid : N) :
  field_of (cookies req) "refreshToken" = VStr t ->
  t <> "" ->
  jwt_verify t = Some payload ->
  payload !! "_id" = Some (VId uid) ->
  Store.findById (VId uid) (users w) = VObj u ->
  u !! "refreshToken" = Some (VStr t) ->
  let access := VStr (generateAccessToken u (clock w)) in
  let refresh := VStr (generateRefreshToken u (clock w)) in
  let (result, w') :=
    refreshAccessToken jwt_verify generateAccessToken generateRefreshToken req w in
  (exists u', Store.findById (VId uid) (users w') = VObj u' /\
     u' !! "refreshToken" = Some refresh) /\
  exists resp, result = Returned resp /\
    status resp = 200%Z /\
    cookie_ops resp =
      [SetCookie "accessToken" access true true;
       SetCookie "refreshToken" VUndef true true] /\
    JS.get_opt (data (json resp)) "accessToken" = access /\
    JS.get_opt (data (json resp)) "refreshToken" = VUndef.
Proof.
  intros Hcookie Ht Hverify Hpayload Hfind Htoken access refresh.
  destruct (generateAccessAndRefreshTokens_found uid w u Hfind)
    as (l1 & l2 & Hw & Hgen & Hnew).
  assert (Hu : u !! "_id" = Some (VId uid)).
  { apply has_id_VId, (find_has_id _ (users w)). by apply findById_VObj. }
  unfold refreshAccessToken. cbv zeta. rewrite Hcookie. unfold JS.or_else.
  rewrite !(truthy_VStr t Ht). cbn [negb].
  unfold try_catch, bind, verify_refresh, lift, User_findById, ret, throw.
  rewrite Hverify. cbn [JS.get_opt]. rewrite Hpayload. cbn [default from_option id].
  rewrite Hfind. cbn [JS.truthy negb JS.get]. rewrite Htoken, Hu.
  cbn [default from_option id JS.strict_eq]. rewrite bool_decide_eq_true_2 by done.
  cbn [negb]. rewrite Hgen. cbn [JS.get].
  split.
  - exists (<["refreshToken" := refresh]> u). split; [done|]. by rewrite lookup_insert_eq.
  - eexists. split; [reflexivity|]. done.
Qed.

End Refresh.

Lemma refreshAccessToken_loses_new_refresh_token_witness :
  let (result, w') :=
    refreshAccessToken Sample.verify Sample.signAccess Sample.signRefresh
      Sample.refresh_request Sample.w0 in
  (exists u', Store.findById (VId 1) (users w') = VObj u' /\
     u' !! "refreshToken" = Some (VStr "refresh-2")) /\
  exists resp, result = Returned resp /\
    status resp = 200%Z /\
    cookie_ops resp =
      [SetCookie "accessToken" (VStr "access-2") true true;
       SetCookie "refreshToken" VUndef true true] /\
    JS.get_opt (data (json resp)) "accessToken" = VStr "access-2" /\
    JS.get_opt (data (json resp)) "refreshToken" = VUndef.
Proof.
  apply (refreshAccessToken_loses_new_refresh_token Sample.verify Sample.signAccess
           Sample.signRefresh Sample.refresh_request Sample.w0 "refresh-1"
           (Sample.obj [("_id", VId 1)]) Sample.alice 1%N);
    (reflexivity || discriminate).
Defined.

Section RefreshRejection.

Variable jwt_verify : string -> option doc.
Variables generateAccessToken generateRefreshToken : doc -> N -> string.

Let refresh := refreshAccessToken jwt_verify generateAccessToken generateRefreshToken.

(** Every failure of the refresh operation is reported as Unauthorized. *)
Lemma refreshAccessToken_fails_401 (req : request) (w w' : world) (e : exn) :
  refresh req w = (Thrown e, w') -> exists m, e = ApiError 401 m.
Proof.
  unfold refresh, refreshAccessToken, try_catch, throw.
  destruct (negb (JS.truthy _)); [intros [= <- _]; by eexists|].
  match goal with |- context [bind ?m ?k w] => destruct (bind m k w) as [[resp|e0] w0] end.
  - done.
  - intros [= <- _]. by eexists.
Qed.

(** A token that verifies but is not the one stored for its user is
    rejected, and nothing is written. *)
Lemma refreshAccessToken_stale (req : request) (w : world) (t : string) (payload u : doc) :
  field_of (cookies req) "refreshToken" = VStr t ->
  t <> "" ->
  jwt_verify t = Some payload ->
  Store.findById (JS.get_opt (VObj payload) "_id") (users w) = VObj u ->
  field_of u "refreshToken" <> VStr t ->
  refresh req w = (Thrown (ApiError 401 "Invalid refresh token"), w).
Proof.
  intros Hcookie Ht Hverify Hfind Hstale.
  unfold refresh, refreshAccessToken. cbv zeta. rewrite Hcookie. unfold JS.or_else.
  rewrite !(truthy_VStr t Ht). cbn [negb].
  unfold try_catch, bind, verify_refresh, lift, User_findById, ret, throw.
  rewrite Hverify, Hfind. cbn [JS.truthy negb JS.get]. fold (field_of u "refreshToken").
  by rewrite (strict_eq_VStr_false _ t Hstale).
Qed.

(** X16. After a rotation the previous token no longer refreshes, as long as the
    signer has produced a different token. *)
Lemma refresh_then_previous_rejected (req : request) (w : world) (t : string)
    (payload u : doc) (uid : N) :
  field_of (cookies req) "refreshToken" = VStr t ->
  t <> "" ->
  jwt_verify t = Some payload ->
  payload !! "_id" = Some (VId uid) ->
  Store.findById (VId uid) (users w) = VObj u ->
  u !! "refreshToken" = Some (VStr t) ->
  generateRefreshToken u (clock w) <> t ->
  let w' := (refresh req w).2 in
  refresh req w' = (Thrown (ApiError 401 "Invalid refresh token"), w').
Proof.
  intros Hcookie Ht Hverify Hpayload Hfind Htoken Hfresh.
  destruct (generateAccessAndRefreshTokens_found generateAccessToken generateRefreshToken
              uid w u Hfind) as (l1 & l2 & Hw & Hgen & Hnew).
  assert (Hu : u !! "_id" = Some (VId uid)).
  { apply has_id_VId, (find_has_id _ (users w)). by apply findById_VObj. }
  assert (Hrun : (refresh req w).2 =
    with_users w
      (l1 ++ <["refreshToken" := VStr (generateRefreshToken u (clock w))]> u :: l2)%list
      (next_id w)).
  { unfold refresh, refreshAccessToken. cbv zeta. rewrite Hcookie. unfold JS.or_else.
    rewrite !(truthy_VStr t Ht). cbn [negb].
    unfold try_catch, bind, verify_refresh, lift, User_findById, ret, throw.
    rewrite Hverify. cbn [JS.get_opt]. rewrite Hpayload. cbn [default from_option id].
    rewrite Hfind. cbn [JS.truthy negb JS.get]. rewrite Htoken, Hu.
    cbn [default from_option id JS.strict_eq]. rewrite bool_decide_eq_true_2 by done.
    cbn [negb]. by rewrite Hgen. }
  cbv zeta. rewrite Hrun.
  apply (refreshAccessToken_stale req _ t payload
           (<["refreshToken" := VStr (generateRefreshToken u (clock w))]> u)); try done.
  - cbn [JS.get_opt]. rewrite Hpayload. exact Hnew.
  - unfold field_of. rewrite lookup_insert_eq. cbn. congruence.
Qed.

End RefreshRejection.

(** ** Avatar and cover-image updates *)

Section MediaUpdate.

Variable cloud : string -> option doc.
Variables (req : request) (w : world) (p : string).
Hypothesis Hpath : JS.get_opt (file req) "path" = VStr p.
Hypothesis Hp : p <> "".

(** The upload of a file that is gone from the disk ends in the error of
    the file system, which the handlers pass on. *)
Lemma updateUserAvatar_file_gone :
  p ∉ disk w ->
  updateUserAvatar cloud req w =
    (Thrown (LibError "fs" "ENOENT: no such file or directory"), w).
Proof.
  intros Hgone. unfold updateUserAvatar, bind. rewrite Hpath, (truthy_VStr p Hp).
  cbn [negb]. by rewrite (uploadOnCloudinary_gone cloud p w Hp Hgone).
Qed.

Lemma updateUserCoverImage_file_gone :
  p ∉ disk w ->
  updateUserCoverImage cloud req w =
    (Thrown (LibError "fs" "ENOENT: no such file or directory"), w).
Proof.
  intros Hgone. unfold updateUserCoverImage, bind. rewrite Hpath, (truthy_VStr p Hp).
  cbn [negb]. by rewrite (uploadOnCloudinary_gone cloud p w Hp Hgone).
Qed.

Hypothesis Hstaged : p ∈ disk w.

Let w1 : world := with_disk w (disk w ∖ {[p]}) (unlinked w ++ [p]).

Lemma updateUserAvatar_upload_fails :
  cloud p = None ->
  updateUserAvatar cloud req w = (Thrown (ApiError 400 "Error uploading avatar"), w1).
Proof.
  intros Hcloud. unfold updateUserAvatar, bind. rewrite Hpath, (truthy_VStr p Hp).
  cbn [negb]. rewrite (uploadOnCloudinary_staged cloud p w Hp Hstaged), Hcloud. done.
Qed.

Lemma updateUserCoverImage_upload_fails :
  cloud p = None ->
  updateUserCoverImage cloud req w =
    (Thrown (ApiError 400 "Error uploading cover image"), w1).
Proof.
  intros Hcloud. unfold updateUserCoverImage, bind. rewrite Hpath, (truthy_VStr p Hp).
  cbn [negb]. rewrite (uploadOnCloudinary_staged cloud p w Hp Hstaged), Hcloud. done.
Qed.

Variables (r u d : doc) (uid : N).
Hypothesis Hcloud : cloud p = Some r.
Hypothesis Huser : user req = VObj u.
Hypothesis Huid : u !! "_id" = Some (VId uid).
Hypothesis Hrecord : Store.findById (VId uid) (users w) = VObj d.

Lemma updateUserAvatar_overwrites :
  exists l1 l2 resp,
    users w = (l1 ++ d :: l2)%list /\
    updateUserAvatar cloud req w =
      (Returned resp,
       with_users w1 (l1 ++ Store.write d ("avatar", field_of r "url") :: l2)%list
         (next_id w)) /\
    status resp = 200%Z.
Proof.
  destruct (findByIdAndUpdate_one uid "avatar" (field_of r "url") w1 d)
    as (l1 & l2 & Hw & Hrun & _); [done|done|].
  exists l1, l2. eexists. split; [done|].
  unfold updateUserAvatar, bind, lift, ret. rewrite Hpath, (truthy_VStr p Hp).
  cbn [negb]. rewrite (uploadOnCloudinary_staged cloud p w Hp Hstaged), Hcloud.
  fold w1. cbn [JS.truthy negb]. rewrite Huser. cbn [JS.get]. rewrite Huid.
  cbn [default from_option id]. fold (field_of r "url"). rewrite Hrun. done.
Qed.

Lemma updateUserCoverImage_overwrites :
  exists l1 l2 resp,
    users w = (l1 ++ d :: l2)%list /\
    updateUserCoverImage cloud req w =
      (Returned resp,
       with_users w1 (l1 ++ Store.write d ("coverImage", field_of r "url") :: l2)%list
         (next_id w)) /\
    status resp = 200%Z.
Proof.
  destruct (findByIdAndUpdate_one uid "coverImage" (field_of r "url") w1 d)
    as (l1 & l2 & Hw & Hrun & _); [done|done|].
  exists l1, l2. eexists. split; [done|].
  unfold updateUserCoverImage, bind, lift, ret. rewrite Hpath, (truthy_VStr p Hp).
  cbn [negb]. rewrite (uploadOnCloudinary_staged cloud p w Hp Hstaged), Hcloud.
  fold w1. cbn [JS.truthy negb]. rewrite Huser. cbn [JS.get]. rewrite Huid.
  cbn [default from_option id]. fold (field_of r "url"). rewrite Hrun. done.
Qed.

End MediaUpdate.

(** C6. An update-avatar or update-cover-image request with no file fails
    with BadRequest (400) and changes nothing, and a request whose staged
    file uploads answers 200 and rewrites the user's record in place,
    touching the avatar field, respectively the coverImage field, alone.
    But a request whose upload fails does not fail with the API error of
    status 500: with the staged file on the disk both handlers throw the API
    error of status 400, and the user collection is unchanged; with the file
    gone from the disk they pass on the error of the file system. *)
Theorem update_media_contract cloud (req : request) (w : world) :
  let path := JS.get_opt (file req) "path" in
  (JS.truthy path = false ->
     updateUserAvatar cloud req w = (Thrown (ApiError 400 "Please upload an avatar"), w) /\
     updateUserCoverImage cloud req w =
       (Thrown (ApiError 400 "Please upload the cover image"), w)) /\
  (forall p, path = VStr p -> p <> "" -> cloud p = None ->
     (p ∈ disk w ->
        (updateUserAvatar cloud req w).1 = Thrown (ApiError 400 "Error uploading avatar") /\
        users (updateUserAvatar cloud req w).2 = users w /\
        (updateUserCoverImage cloud req w).1
          = Thrown (ApiError 400 "Error uploading cover image") /\
        users (updateUserCoverImage cloud req w).2 = users w) /\
     (p ∉ disk w ->
        updateUserAvatar cloud req w
          = (Thrown (LibError "fs" "ENOENT: no such file or directory"), w) /\
        updateUserCoverImage cloud req w
          = (Thrown (LibError "fs" "ENOENT: no such file or directory"), w))) /\
  (forall p r u uid d,
     path = VStr p -> p <> "" -> p ∈ disk w -> cloud p = Some r ->
     user req = VObj u -> u !! "_id" = Some (VId uid) ->
     Store.findById (VId uid) (users w) = VObj d ->
     (exists l1 l2 resp d',
        users w = (l1 ++ d :: l2)%list /\
        (updateUserAvatar cloud req w).1 = Returned resp /\ status resp = 200%Z /\
        users (updateUserAvatar cloud req w).2 = (l1 ++ d' :: l2)%list /\
        (forall k, k <> "avatar" -> d' !! k = d !! k) /\
        (forall x, r !! "url" = Some (VStr x) -> d' !! "avatar" = Some (VStr x))) /\
     (exists l1 l2 resp d',
        users w = (l1 ++ d :: l2)%list /\
        (updateUserCoverImage cloud req w).1 = Returned resp /\ status resp = 200%Z /\
        users (updateUserCoverImage cloud req w).2 = (l1 ++ d' :: l2)%list /\
        (forall k, k <> "coverImage" -> d' !! k = d !! k) /\
        (forall x, r !! "url" = Some (VStr x) -> d' !! "coverImage" = Some (VStr x)))).
Proof.
  intros path. split; [|split].
  - intros Hnone. unfold updateUserAvatar, updateUserCoverImage. fold path.
    by rewrite Hnone.
  - intros p Hpath Hp Hcloud. split.
    + intros Hstaged.
      rewrite (updateUserAvatar_upload_fails cloud req w p Hpath Hp Hstaged Hcloud).
      by rewrite (updateUserCoverImage_upload_fails cloud req w p Hpath Hp Hstaged Hcloud).
    + intros Hgone. split.
      * exact (updateUserAvatar_file_gone cloud req w p Hpath Hp Hgone).
      * exact (updateUserCoverImage_file_gone cloud req w p Hpath Hp Hgone).
  - intros p r u uid d Hpath Hp Hstaged Hcloud Huser Huid Hrecord. split.
    + destruct (updateUserAvatar_overwrites cloud req w p Hpath Hp Hstaged r u d uid
                  Hcloud Huser Huid Hrecord) as (l1 & l2 & resp & Hw & -> & Hstatus).
      exists l1, l2, resp. eexists. split; [done|]. split; [done|]. split; [done|].
      split; [reflexivity|]. split.
      * intros k Hk. by apply write_lookup_ne.
      * intros x Hx. rewrite write_lookup_eq. unfold field_of. by rewrite Hx.
    + destruct (updateUserCoverImage_overwrites cloud req w p Hpath Hp Hstaged r u d uid
                  Hcloud Huser Huid Hrecord) as (l1 & l2 & resp & Hw & -> & Hstatus).
      exists l1, l2, resp. eexists. split; [done|]. split; [done|]. split; [done|].
      split; [reflexivity|]. split.
      * intros k Hk. by apply write_lookup_ne.
      * intros x Hx. rewrite write_lookup_eq. unfold field_of. by rewrite Hx.
Qed.

Lemma update_media_contract_witness :
  updateUserAvatar Sample.cloud_up (Sample.as_alice VUndef ∅) Sample.w0
    = (Thrown (ApiError 400 "Please upload an avatar"), Sample.w0) /\
  ((updateUserAvatar Sample.cloud_down Sample.upload_request Sample.w0).1
     = Thrown (ApiError 400 "Error uploading avatar") /\
   (updateUserCoverImage Sample.cloud_down Sample.upload_request Sample.w0).1
     = Thrown (ApiError 400 "Error uploading cover image")) /\
  exists l1 l2 resp d',
    users Sample.w0 = (l1 ++ Sample.alice :: l2)%list /\
    (updateUserAvatar Sample.cloud_up Sample.upload_request Sample.w0).1 = Returned resp /\
    status resp = 200%Z /\
    users (updateUserAvatar Sample.cloud_up Sample.upload_request Sample.w0).2
      = (l1 ++ d' :: l2)%list /\
    (forall k, k <> "avatar" -> d' !! k = Sample.alice !! k) /\
    d' !! "avatar" = Some (VStr "http://media/new.png").
Proof.
  split; [|split].
  - apply (update_media_contract Sample.cloud_up (Sample.as_alice VUndef ∅) Sample.w0).
    reflexivity.
  - destruct (proj1 (proj2 (update_media_contract Sample.cloud_down Sample.upload_request
                              Sample.w0)) Sample.staged)
      as [Hstaged _]; [reflexivity|discriminate|reflexivity|].
    destruct Hstaged as (Ha & _ & Hc & _); [vm_compute; reflexivity|]. by split.
  - destruct (proj1 (proj2 (proj2 (update_media_contract Sample.cloud_up Sample.upload_request
                              Sample.w0))
             Sample.staged (Sample.obj [("url", VStr "http://media/new.png")])
             (foldr delete Sample.alice ["password"; "refreshToken"]) 1%N Sample.alice
             eq_refl ltac:(discriminate) ltac:(vm_compute; reflexivity) eq_refl eq_refl
             eq_refl eq_refl))
      as (l1 & l2 & resp & d' & Hw & Hrun & Hstatus & Husers & Hkeep & Hurl).
    exists l1, l2, resp, d'. repeat (split; [done|]). by apply Hurl.
Defined.

(** ** Channel profile *)

Lemma each_total (f : doc -> outcome doc) (g : doc -> doc) (ds : list doc) :
  (forall d, f d = Returned (g d)) -> Aggregate.each f ds = Returned (g <$> ds).
Proof.
  intros Hf. induction ds as [|d rest IH]; csimpl; [done|]. by rewrite Hf, IH.
Qed.

Lemma each_fmap (f : doc -> outcome doc) (g : doc -> doc) (ds : list doc) :
  Aggregate.each f (g <$> ds) = Aggregate.each (fun d => f (g d)) ds.
Proof. induction ds as [|d rest IH]; csimpl; [done|]. by rewrite IH. Qed.

Lemma find_filter_head {A} (f : A -> bool) (l : list A) (x : A) :
  find f l = Some x -> exists rest, List.filter f l = x :: rest.
Proof.
  induction l as [|y l IH]; simpl; [done|].
  destruct (f y) eqn:Hy.
  - intros [= ->]. by eexists.
  - done.
Qed.

(** The subscriber ids read off the edges that point at a channel. *)
Lemma subscriber_among (x : value) (edges : list doc) :
  existsb (JS.strict_eq x)
    (omap (fun e => match e with VObj m => m !! "subscriber" | _ => None end)
       (VObj <$> edges)) = true
  <-> exists e y, e ∈ edges /\ e !! "subscriber" = Some y /\ JS.strict_eq x y = true.
Proof.
  rewrite existsb_exists. split.
  - intros (y & Hin & Heq). apply list_elem_of_In, list_elem_of_omap in Hin as (o & Ho & Hy).
    apply list_elem_of_fmap in Ho as (e & -> & He). by exists e, y.
  - intros (e & y & He & Hy & Heq). exists y. split; [|done].
    apply list_elem_of_In, list_elem_of_omap. exists (VObj e). split; [|done].
    apply list_elem_of_fmap. by exists e.
Qed.

Lemma channel_pipeline_total (username viewer : value) (w : world) (ds : list doc) :
  channel_pipeline username viewer w ds =
    Returned (channel_view viewer w <$> List.filter (Store.matches "username" username) ds).
Proof.
  unfold channel_pipeline, Aggregate.seq, Aggregate.match_, Aggregate.lookup,
    Aggregate.project, channel_addFields. cbn [obind].
  rewrite (each_total _
    (fun d => <["subscribers" :=
                 VArr (VObj <$> Aggregate.joined (subscriptions w) "channel"
                                  (default VNull (d !! "_id")))]> d)) by done.
  cbn [obind].
  rewrite each_fmap.
  rewrite (each_total _
    (fun d => <["subscribedTo" :=
                 VArr (VObj <$> Aggregate.joined (subscriptions w) "subscriber"
                                  (default VNull (d !! "_id")))]>
              (<["subscribers" :=
                 VArr (VObj <$> Aggregate.joined (subscriptions w) "channel"
                                  (default VNull (d !! "_id")))]> d))).
  2: { intros d. cbn [obind]. by rewrite lookup_insert_ne. }
  cbn [obind]. rewrite each_fmap.
  rewrite (each_total _
    (fun d =>
       let lv := default VNull (d !! "_id") in
       let subscribers := Aggregate.joined (subscriptions w) "channel" lv in
       let subscribedTo := Aggregate.joined (subscriptions w) "subscriber" lv in
       <["isSubscribed" :=
           VBool (existsb (JS.strict_eq (Store.to_bson viewer))
                    (omap (fun e => match e with VObj m => m !! "subscriber" | _ => None end)
                       (VObj <$> subscribers)))]>
         (<["subscribedToCount" := VNum (Z.of_nat (length subscribedTo))]>
            (<["subscriberCount" := VNum (Z.of_nat (length subscribers))]>
               (<["subscribedTo" := VArr (VObj <$> subscribedTo)]>
                  (<["subscribers" := VArr (VObj <$> subscribers)]> d)))))).
  2: { intros d. unfold field_of.
       rewrite lookup_insert_ne by done. rewrite !lookup_insert_eq.
       cbn [default from_option id Aggregate.size Aggregate.path_values Aggregate.in_ obind].
       rewrite !length_fmap. by destruct (existsb _ _). }
  cbn [obind]. rewrite each_fmap.
  by rewrite (each_total _ (channel_view viewer w)).
Qed.

Lemma listed (k : string) (l : list string) : bool_decide (k ∈ l) = true -> k ∈ l.
Proof. apply bool_decide_eq_true_1. Qed.

Lemma project_keeps (k : string) (x : value) (m : doc) :
  bool_decide (k ∈ "_id" :: channel_projection) = true ->
  filter (fun kv : string * value => kv.1 ∈ "_id" :: channel_projection) m !! k = Some x
  <-> m !! k = Some x.
Proof.
  intros Hk. rewrite map_lookup_filter_Some. split; [by intros [? _]|].
  intros Hm. split; [done|]. by apply listed.
Qed.

Lemma getUserChannelProfile_run unicode_lower (req : request) (w : world) (name : string)
    (u : doc) :
  params req !! "username" = Some (VStr name) ->
  name <> "" ->
  find (Store.matches "username" (VStr (JS.lower unicode_lower name))) (users w) = Some u ->
  getUserChannelProfile unicode_lower req w =
    (Returned (Response 200 []
                 (new_ApiResponse 200
                    (VObj (channel_view (JS.get_opt (user req) "_id") w u))
                    "Channel profile fetched successfully")), w).
Proof.
  intros Hname Hne Hfind.
  destruct (find_filter_head _ _ _ Hfind) as [rest Hfilter].
  unfold getUserChannelProfile, field_of. rewrite Hname. cbn [default from_option id].
  rewrite (truthy_VStr name Hne). cbn [negb].
  unfold bind, lift, User_aggregate, JS.toLowerCase_opt. cbn [JS.nullish JS.toLowerCase].
  by rewrite channel_pipeline_total, Hfilter.
Qed.

Lemma channel_view_flag (viewer : value) (w : world) (u : doc) (c : N) (b : bool) :
  u !! "_id" = Some (VId c) ->
  channel_view viewer w u !! "isSubscribed" = Some (VBool b)
  <-> existsb (JS.strict_eq (Store.to_bson viewer))
        (omap (fun e => match e with VObj m => m !! "subscriber" | _ => None end)
           (VObj <$> edges_to c w)) = b.
Proof.
  intros Hid. unfold channel_view. rewrite Hid. cbn [default from_option id Aggregate.joined].
  fold (edges_to c w). rewrite project_keeps by done. rewrite lookup_insert_eq.
  split; [by intros [= ->]|by intros ->].
Qed.

Lemma no_null_subscriber (c : N) (w : world) :
  (forall e, e ∈ subscriptions w -> exists s, e !! "subscriber" = Some (VId s)) ->
  existsb (JS.strict_eq VNull)
    (omap (fun e => match e with VObj m => m !! "subscriber" | _ => None end)
       (VObj <$> edges_to c w)) = false.
Proof.
  intros Hedges. apply not_true_is_false. rewrite subscriber_among.
  intros (e & y & He & Hy & Heq). apply strict_eq_VNull in Heq as ->.
  unfold edges_to in He. apply list_elem_of_In, filter_In in He as [He _].
  apply list_elem_of_In in He. destruct (Hedges e He) as [s Hs]. congruence.
Qed.

(** The handler taken by itself, on a request to which a viewer may have
    been attached: the two counts are the numbers of edges that point at the
    channel and that leave it, and the flag is true exactly when the id of
    the attached viewer is the subscriber field of one of the channel's
    edges; with no viewer the flag is false. *)
Lemma getUserChannelProfile_counts unicode_lower (req : request) (w : world)
    (name : string) (u : doc) (c : N) :
  params req !! "username" = Some (VStr name) ->
  name <> "" ->
  find (Store.matches "username" (VStr (JS.lower unicode_lower name))) (users w) = Some u ->
  u !! "_id" = Some (VId c) ->
  exists resp view,
    getUserChannelProfile unicode_lower req w = (Returned resp, w) /\
    status resp = 200%Z /\
    data (json resp) = VObj view /\
    view !! "subscriberCount" = Some (VNum (Z.of_nat (length (edges_to c w)))) /\
    view !! "subscribedToCount" = Some (VNum (Z.of_nat (length (edges_from c w)))) /\
    (exists b, view !! "isSubscribed" = Some (VBool b)) /\
    (forall v, JS.get_opt (user req) "_id" = VId v ->
       view !! "isSubscribed" = Some (VBool true)
       <-> exists e, e ∈ edges_to c w /\ e !! "subscriber" = Some (VId v)) /\
    (JS.get_opt (user req) "_id" = VUndef ->
     (forall e, e ∈ subscriptions w -> exists s, e !! "subscriber" = Some (VId s)) ->
     view !! "isSubscribed" = Some (VBool false)).
Proof.
  intros Hname Hne Hfind Hid.
  eexists _, (channel_view (JS.get_opt (user req) "_id") w u).
  split; [by apply (getUserChannelProfile_run unicode_lower req w name u)|].
  split; [done|]. split; [done|].
  split; [|split; [|split; [|split]]].
  - unfold channel_view. rewrite Hid. cbn [default from_option id Aggregate.joined].
    fold (edges_to c w). apply project_keeps; [done|].
    by rewrite !lookup_insert_ne, lookup_insert_eq by done.
  - unfold channel_view. rewrite Hid. cbn [default from_option id Aggregate.joined].
    fold (edges_from c w). apply project_keeps; [done|].
    by rewrite lookup_insert_ne, lookup_insert_eq by done.
  - eexists. by apply (channel_view_flag _ w u c).
  - intros v Hv. rewrite (channel_view_flag _ w u c true Hid), Hv. cbn [Store.to_bson].
    rewrite subscriber_among. split.
    + intros (e & y & He & Hy & Heq). apply strict_eq_VId in Heq as ->. by exists e.
    + intros (e & He & Hy). exists e, (VId v). split; [done|]. split; [done|].
      by apply strict_eq_VId.
  - intros Hanon Hedges. apply (channel_view_flag _ w u c false Hid).
    rewrite Hanon. cbn [Store.to_bson]. by apply no_null_subscriber.
Qed.

(** X28. The profile route mounts the handler alone: no middleware attaches a
    user, so on this route the viewer is always absent and the flag is
    false, also for a caller who sends the token of a subscriber. *)
Lemma route_channel_profile_never_subscribed unicode_lower (req : request) (w : world)
    (name : string) (u : doc) (c : N) :
  params req !! "username" = Some (VStr name) ->
  name <> "" ->
  find (Store.matches "username" (VStr (JS.lower unicode_lower name))) (users w) = Some u ->
  u !! "_id" = Some (VId c) ->
  (forall e, e ∈ subscriptions w -> exists s, e !! "subscriber" = Some (VId s)) ->
  exists resp view,
    route_channel_profile unicode_lower req w = (Returned resp, w) /\
    data (json resp) = VObj view /\
    view !! "isSubscribed" = Some (VBool false).
Proof.
  intros Hname Hne Hfind Hid Hedges. unfold route_channel_profile.
  rewrite (getUserChannelProfile_run unicode_lower (unauthenticated req) w name u
             Hname Hne Hfind).
  eexists _, _. split; [done|]. split; [done|].
  apply (channel_view_flag _ w u c false Hid). by apply no_null_subscriber.
Qed.

(** C4. On the route that serves the channel profile, the two counts are
    right: subscriberCount is the number of subscription edges whose channel
    field references the user and subscribedToCount the number of edges
    whose subscriber field references the user.  The flag is not: the route
    runs no authentication, the handler finds no viewer on the request, and
    isSubscribed is false also when the caller is a subscriber of the
    channel, that is when an edge of the channel has the caller's id as its
    subscriber. *)
Theorem route_channel_profile_misses_subscriber unicode_lower (req : request) (w : world)
    (name : string) (u e : doc) (c v : N) :
  params req !! "username" = Some (VStr name) ->
  name <> "" ->
  find (Store.matches "username" (VStr (JS.lower unicode_lower name))) (users w) = Some u ->
  u !! "_id" = Some (VId c) ->
  (forall e', e' ∈ subscriptions w -> exists s, e' !! "subscriber" = Some (VId s)) ->
  JS.get_opt (user req) "_id" = VId v ->
  e ∈ edges_to c w ->
  e !! "subscriber" = Some (VId v) ->
  exists resp view,
    route_channel_profile unicode_lower req w = (Returned resp, w) /\
    status resp = 200%Z /\
    data (json resp) = VObj view /\
    view !! "subscriberCount" = Some (VNum (Z.of_nat (length (edges_to c w)))) /\
    view !! "subscribedToCount" = Some (VNum (Z.of_nat (length (edges_from c w)))) /\
    view !! "isSubscribed" = Some (VBool false).
Proof.
  intros Hname Hne Hfind Hid Hedges _ _ _.
  destruct (getUserChannelProfile_counts unicode_lower (unauthenticated req) w name u c
              Hname Hne Hfind Hid)
    as (resp & view & Hrun & Hstatus & Hdata & Hn & Hm & _ & _ & Hanon).
  exists resp, view. unfold route_channel_profile.
  split; [done|]. split; [done|]. split; [done|]. split; [done|]. split; [done|].
  by apply Hanon.
Qed.

Lemma route_channel_profile_misses_subscriber_witness :
  exists resp view,
    route_channel_profile Sample.unicode_lower Sample.bob_views_alice
      Sample.w0 = (Returned resp, Sample.w0) /\
    status resp = 200%Z /\
    data (json resp) = VObj view /\
    view !! "subscriberCount" = Some (VNum 1) /\
    view !! "subscribedToCount" = Some (VNum 0) /\
    view !! "isSubscribed" = Some (VBool false).
Proof.
  apply (route_channel_profile_misses_subscriber Sample.unicode_lower
           Sample.bob_views_alice Sample.w0 "Alice" Sample.alice
           (Sample.obj [("subscriber", VId 2); ("channel", VId 1)]) 1%N 2%N);
    try reflexivity; try discriminate.
  - intros e He. apply list_elem_of_singleton in He as ->. by exists 2%N.
  - apply list_elem_of_singleton. reflexivity.
Defined.

(** ** Watch history *)

(** What the handler does for an authenticated user: the aggregation is
    never awaited, so element 0 of the query object is undefined. *)
Lemma getWatchHistory_authenticated (req : request) (w : world) (u : doc) (uid : N) :
  user req = VObj u ->
  u !! "_id" = Some (VId uid) ->
  getWatchHistory req w =
    (Thrown (TypeError "Cannot read properties of undefined (reading 'watchHistory')"), w).
Proof.
  intros Hreq Hid. unfold getWatchHistory, bind, lift, new_ObjectId.
  rewrite Hreq. cbn [JS.get]. by rewrite Hid.
Qed.

(** C2. The watch-history handler never returns a list: whatever the
    request and the store, it ends by throwing, and leaves the world as it
    was.  For an authenticated user the exception is the TypeError of reading
    [watchHistory] of undefined. *)
Theorem getWatchHistory_always_throws (req : request) (w : world) :
  exists e, getWatchHistory req w = (Thrown e, w).
Proof.
  unfold getWatchHistory, bind, lift, new_ObjectId.
  destruct (JS.get (user req) "_id") as [uid|e]; [|by eexists].
  destruct uid; by eexists.
Qed.

(** * Further properties of the code *)

(** ** Media uploader: a path whose file is gone *)

(** X1. When the local file is not on the disk, the uploader does not
    return null: the unlink fails, in the success branch and again in the
    catch block, and the file-system error escapes, whatever the media
    service answered.  The world is left as it was. *)
Theorem uploadOnCloudinary_missing_file_throws cloud (p : string) (w : world) :
  p <> "" ->
  p ∉ disk w ->
  uploadOnCloudinary cloud (VStr p) w =
    (Thrown (LibError "fs" "ENOENT: no such file or directory"), w).
Proof.
  intros Hp Hgone.
  unfold uploadOnCloudinary, try_catch, bind, cloudinary_upload, ret, unlinkSync.
  rewrite (truthy_VStr p Hp). cbn [negb].
  destruct (cloud p) as [r|]; by rewrite !decide_False.
Qed.

Lemma uploadOnCloudinary_missing_file_throws_witness :
  uploadOnCloudinary Sample.cloud_up (VStr "public/temp/gone.png") Sample.w0 =
    (Thrown (LibError "fs" "ENOENT: no such file or directory"), Sample.w0).
Proof.
  apply (uploadOnCloudinary_missing_file_throws Sample.cloud_up "public/temp/gone.png"
           Sample.w0).
  - discriminate.
  - vm_compute. discriminate.
Defined.

(** ** Registration: uploads and the created record *)

(** X2. A registration that passes the validation and the existence check
    and carries a staged avatar (and no cover image) fails with status 500
    when the media service rejects the avatar.  No record is created; the
    staged file has been removed. *)
Theorem registerUser_avatar_upload_fails cloud hashPassword unicode_lower (req : request)
    (w : world) (fs f : doc) (rest : list value) (p : string) :
  some_blank (register_fields req) = Returned false ->
  JS.truthy (existing_user req w) = false ->
  files req = VObj fs ->
  fs !! "avatar" = Some (VArr (VObj f :: rest)) ->
  f !! "path" = Some (VStr p) ->
  fs !! "coverImage" = None ->
  p <> "" -> p ∈ disk w ->
  cloud p = None ->
  let (result, w') := registerUser cloud hashPassword unicode_lower req w in
  result = Thrown (ApiError 500 "Error uploading avatar") /\
  users w' = users w /\
  disk w' = disk w ∖ {[p]} /\
  unlinked w' = (unlinked w ++ [p])%list.
Proof.
  intros Hvalid Hfresh Hfiles Havatar Hpath Hcover Hp Hstaged Hcloud.
  unfold registerUser, bind, lift, User_findOne_or.
  unfold register_fields in Hvalid. rewrite Hvalid.
  unfold existing_user in Hfresh. rewrite Hfresh. rewrite Hfiles.
  rewrite (avatar_path_staged fs f rest p Havatar Hpath), (coverImage_path_none fs Hcover).
  rewrite (truthy_VStr p Hp). cbn [negb].
  rewrite (uploadOnCloudinary_staged cloud p w Hp Hstaged), Hcloud.
  rewrite uploadOnCloudinary_falsy by done. done.
Qed.

Lemma registerUser_avatar_upload_fails_witness :
  let (result, w') :=
    registerUser Sample.cloud_down Sample.hash Sample.unicode_lower Sample.register_carol
        Sample.w0 in
  result = Thrown (ApiError 500 "Error uploading avatar") /\
  users w' = users Sample.w0 /\
  disk w' = disk Sample.w0 ∖ {[Sample.staged]} /\
  unlinked w' = [Sample.staged].
Proof.
  apply (registerUser_avatar_upload_fails Sample.cloud_down Sample.hash Sample.unicode_lower
           Sample.register_carol Sample.w0
           (Sample.obj [("avatar", VArr [VObj (Sample.obj [("path", VStr Sample.staged)])])])
           (Sample.obj [("path", VStr Sample.staged)]) [] Sample.staged);
    first [reflexivity | discriminate | (vm_compute; reflexivity)].
Defined.


Ltac invert_register H :=
  unfold registerUser, bind, lift, User_findOne_or, throw, ret, User_create,
    User_findById in H;
  repeat (cbv beta iota zeta in H;
          match type of H with
          | context [match ?x with _ => _ end] => destruct x eqn:?
          end; try discriminate H).

Lemma created_record_found (w : world) (d0 : doc) :
  let d := <["_id" := VId (next_id w)]> d0 in
  JS.truthy
    (Store.select_minus ["password"; "refreshToken"]
       (Store.findById (JS.get_opt (VObj d) "_id") (users w ++ [d]))) = true.
Proof.
  intros d. cbn [JS.get_opt]. unfold d at 1. rewrite lookup_insert_eq.
  cbn [default from_option id].
  destruct (findById_last (VId (next_id w)) (users w) d) as [d1 ->]; [|done].
  apply has_id_VId. unfold d. by rewrite lookup_insert_eq.
Qed.

(** X5. A registration that fails, at whatever step, has created no
    record: the user collection and the id counter are as before. *)
Theorem registerUser_failure_creates_nothing cloud hashPassword unicode_lower
    (req : request) (w w' : world) (e : exn) :
  registerUser cloud hashPassword unicode_lower req w = (Thrown e, w') ->
  users w' = users w /\ next_id w' = next_id w.
Proof.
  intros H. invert_register H.
  all: try (injection H as _ <-).
  all: repeat match goal with
         | Hup : uploadOnCloudinary ?c ?p ?w0 = (_, ?w1) |- _ =>
             let Hk := fresh "Hk" in
             pose proof (uploadOnCloudinary_keeps_users c p w0) as Hk;
             rewrite Hup in Hk; simpl in Hk; destruct Hk; clear Hup
         end.
  all: try (split; congruence).
  exfalso. cbn [users with_users] in *.
  match goal with
  | Hneg : negb (JS.truthy _) = true |- _ =>
      rewrite (created_record_found w1) in Hneg; discriminate Hneg
  end.
Qed.

(** X4. A registration that succeeds has appended exactly one record to
    the user collection, under the next free id.  The record holds the
    username in lower case and no refresh token; it holds the email and the
    full name of the request, and no such field when the request has none.
    A password that the request has is stored as its hash.  The answer has
    HTTP status 201 while the envelope inside it says 200. *)
Theorem registerUser_creates_one_record cloud hashPassword unicode_lower (req : request)
    (w w' : world) (resp : response) :
  registerUser cloud hashPassword unicode_lower req w = (Returned resp, w') ->
  status resp = 201%Z /\ statusCode (json resp) = 200%Z /\
  exists name d,
    body req !! "username" = Some (VStr name) /\
    users w' = (users w ++ [d])%list /\
    next_id w' = N.succ (next_id w) /\
    d !! "_id" = Some (VId (next_id w)) /\
    d !! "username" = Some (VStr (JS.lower unicode_lower name)) /\
    d !! "email" = Store.present (field_of (body req) "email") /\
    d !! "fullName" = Store.present (field_of (body req) "fullName") /\
    d !! "password" = hashPassword <$> Store.present (field_of (body req) "password") /\
    d !! "refreshToken" = None.
Proof.
  intros H. invert_register H.
  injection H as <- <-.
  repeat match goal with
         | Hup : uploadOnCloudinary ?c ?p ?w0 = (_, ?w1) |- _ =>
             let Hk := fresh "Hk" in
             pose proof (uploadOnCloudinary_keeps_users c p w0) as Hk;
             rewrite Hup in Hk; simpl in Hk; destruct Hk; clear Hup
         end.
  split; [done|]. split; [done|].
  match goal with
  | Hlow : JS.toLowerCase _ (field_of (body req) "username") = Returned ?l |- _ =>
      destruct (field_of (body req) "username") as [| | | |name| | |] eqn:Hname;
        cbn [JS.toLowerCase] in Hlow; try discriminate Hlow; injection Hlow as <-
  end.
  cbn [users next_id with_users].
  replace (users w1) with (users w) by congruence.
  replace (next_id w1) with (next_id w) by congruence.
  exists name. eexists. split; [by apply field_of_VStr|].
  split; [reflexivity|]. split; [reflexivity|].
  split; [by lookup_written|]. split; [by lookup_written|].
  split; [by lookup_written|]. split; [by lookup_written|].
  split; by lookup_written.
Qed.

(** A required field that is neither absent nor a string makes the
    validation itself throw: a registration whose fullName is a number ends
    in a TypeError, not in BadRequest, and changes nothing. *)
Theorem registerUser_number_field_throws_TypeError cloud hashPassword unicode_lower
    (req : request) (w : world) (n : Z) :
  body req !! "fullName" = Some (VNum n) ->
  registerUser cloud hashPassword unicode_lower req w
    = (Thrown (TypeError "field?.trim is not a function"), w).
Proof.
  intros Hfield. unfold registerUser, bind, lift, field_of. by rewrite Hfield.
Qed.


Lemma registerUser_failure_creates_nothing_witness :
  match registerUser Sample.cloud_down Sample.hash Sample.unicode_lower Sample.register_carol
        Sample.w0 with
  | (Thrown _, w') => users w' = users Sample.w0 /\ next_id w' = next_id Sample.w0
  | (Returned _, _) => False
  end.
Proof.
  destruct (registerUser Sample.cloud_down Sample.hash Sample.unicode_lower
            Sample.register_carol Sample.w0)
    as [[resp|e] w'] eqn:Hrun.
  - vm_compute in Hrun. discriminate Hrun.
  - exact (registerUser_failure_creates_nothing _ _ _ _ _ _ _ Hrun).
Defined.

Lemma registerUser_creates_one_record_witness :
  match registerUser Sample.cloud_up Sample.hash Sample.unicode_lower Sample.register_carol
        Sample.w0 with
  | (Returned resp, w') =>
      status resp = 201%Z /\ statusCode (json resp) = 200%Z /\
      exists name d,
        body Sample.register_carol !! "username" = Some (VStr name) /\
        users w' = (users Sample.w0 ++ [d])%list /\
        next_id w' = N.succ (next_id Sample.w0) /\
        d !! "_id" = Some (VId (next_id Sample.w0)) /\
        d !! "username" = Some (VStr (JS.lower Sample.unicode_lower name)) /\
        d !! "email" = Store.present (field_of (body Sample.register_carol) "email") /\
        d !! "fullName" = Store.present (field_of (body Sample.register_carol) "fullName") /\
        d !! "password"
          = Sample.hash <$> Store.present (field_of (body Sample.register_carol) "password") /\
        d !! "refreshToken" = None
  | (Thrown _, _) => False
  end.
Proof.
  destruct (registerUser Sample.cloud_up Sample.hash Sample.unicode_lower Sample.register_carol
            Sample.w0)
    as [[resp|e] w'] eqn:Hrun.
  - exact (registerUser_creates_one_record _ _ _ _ _ _ _ Hrun).
  - vm_compute in Hrun. discriminate Hrun.
Defined.

Lemma registerUser_number_field_throws_TypeError_witness :
  registerUser Sample.cloud_up Sample.hash Sample.unicode_lower Sample.register_number
    Sample.w0
  = (Thrown (TypeError "field?.trim is not a function"), Sample.w0).
Proof.
  apply (registerUser_number_field_throws_TypeError Sample.cloud_up Sample.hash Sample.unicode_lower
           Sample.register_number Sample.w0 7).
  reflexivity.
Defined.

Lemma registerUser_twice_conflict_witness :
  match registerUser Sample.cloud_up Sample.hash Sample.unicode_lower Sample.register_carol
        Sample.w0 with
  | (Returned _, w') =>
      registerUser Sample.cloud_down Sample.hash Sample.unicode_lower Sample.register_carol w'
        = (Thrown (ApiError 409 "User already exists"), w')
  | (Thrown _, _) => False
  end.
Proof.
  destruct (registerUser Sample.cloud_up Sample.hash Sample.unicode_lower Sample.register_carol
            Sample.w0)
    as [[resp|e] w'] eqn:Hrun.
  - exact (registerUser_twice_conflict _ Sample.cloud_down _ _ _ _ _ _ Hrun).
  - vm_compute in Hrun. discriminate Hrun.
Defined.

Lemma registerUser_no_files_witness :
  registerUser Sample.cloud_up Sample.hash Sample.unicode_lower Sample.register_no_files Sample.w0
  = (Thrown (ApiError 400 "Please upload an avatar"), Sample.w0).
Proof.
  apply (registerUser_no_files Sample.cloud_up Sample.hash Sample.unicode_lower
           Sample.register_no_files Sample.w0); reflexivity.
Defined.

(** ** Token issue, login and refresh *)

Section SessionFacts.

Variable isPasswordCorrect : doc -> value -> outcome bool.
Variable jwt_verify : string -> option doc.
Variables generateAccessToken generateRefreshToken : doc -> N -> string.

Let issue := generateAccessAndRefreshTokens generateAccessToken generateRefreshToken.
Let refresh := refreshAccessToken jwt_verify generateAccessToken generateRefreshToken.
Let login := loginUser isPasswordCorrect generateAccessToken generateRefreshToken.

Lemma generateAccessAndRefreshTokens_failure (id : value) (w w' : world) (e : exn) :
  issue id w = (Thrown e, w') ->
  e = ApiError 500 "Something went wrong while generating refresh and access tokens" /\
  w' = w.
Proof.
  unfold issue, generateAccessAndRefreshTokens, try_catch, bind, User_findById,
    call_token_method, User_save, ret, throw.
  destruct (Store.findById id (users w)); intros H; by simplify_eq.
Qed.

Lemma generateAccessAndRefreshTokens_pair (id : value) (w w' : world) (tk : value) :
  issue id w = (Returned tk, w') -> exists m, tk = VObj m.
Proof.
  unfold issue, generateAccessAndRefreshTokens, try_catch, bind, User_findById,
    call_token_method, User_save, ret, throw.
  destruct (Store.findById id (users w)); intros H; simplify_eq; by eexists.
Qed.

(** X8. Token issue for an id that no record has fails with the generic
    status 500: the TypeError of calling a method on the missing user is
    caught and replaced, and nothing is written. *)
Theorem generateAccessAndRefreshTokens_unknown_user (id : value) (w : world) :
  Store.findById id (users w) = VNull ->
  issue id w =
    (Thrown (ApiError 500 "Something went wrong while generating refresh and access tokens"),
     w).
Proof.
  intros Hnone.
  unfold issue, generateAccessAndRefreshTokens, try_catch, bind, User_findById,
    call_token_method, throw.
  by rewrite Hnone.
Qed.

Lemma refreshAccessToken_run (req : request) (w : world) (t : string) (payload u : doc)
    (uid : N) :
  field_of (cookies req) "refreshToken" = VStr t ->
  t <> "" ->
  jwt_verify t = Some payload ->
  payload !! "_id" = Some (VId uid) ->
  Store.findById (VId uid) (users w) = VObj u ->
  u !! "refreshToken" = Some (VStr t) ->
  let u' := <["refreshToken" := VStr (generateRefreshToken u (clock w))]> u in
  exists l1 l2 resp,
    users w = (l1 ++ u :: l2)%list /\
    refresh req w = (Returned resp, with_users w (l1 ++ u' :: l2)%list (next_id w)) /\
    status resp = 200%Z /\
    Store.findById (VId uid) (l1 ++ u' :: l2)%list = VObj u'.
Proof.
  intros Hcookie Ht Hverify Hpayload Hfind Htoken u'.
  destruct (generateAccessAndRefreshTokens_found generateAccessToken generateRefreshToken
              uid w u Hfind) as (l1 & l2 & Hw & Hgen & Hnew).
  assert (Hu : u !! "_id" = Some (VId uid)).
  { apply has_id_VId, (find_has_id _ (users w)). by apply findById_VObj. }
  exists l1, l2. eexists. split; [done|]. split; [|split; [|exact Hnew]].
  - unfold refresh, refreshAccessToken. cbv zeta. rewrite Hcookie. unfold JS.or_else.
    rewrite !(truthy_VStr t Ht). cbn [negb].
    unfold try_catch, bind, verify_refresh, lift, User_findById, ret, throw.
    rewrite Hverify. cbn [JS.get_opt]. rewrite Hpayload. cbn [default from_option id].
    rewrite Hfind. cbn [JS.truthy negb JS.get]. rewrite Htoken, Hu.
    cbn [default from_option id JS.strict_eq]. rewrite bool_decide_eq_true_2 by done.
    cbn [negb]. rewrite Hgen. cbn [JS.get]. reflexivity.
  - done.
Qed.

(** X9. Whatever makes a refresh fail, the caller sees status 401 and the
    world is left as it was: a failed refresh writes nothing. *)
Theorem refreshAccessToken_failure_writes_nothing (req : request) (w w' : world) (e : exn) :
  refresh req w = (Thrown e, w') ->
  (exists m, e = ApiError 401 m) /\ w' = w.
Proof.
  unfold refresh, refreshAccessToken, try_catch, throw.
  destruct (negb (JS.truthy _)); [intros [= <- <-]; split; [by eexists|done]|].
  match goal with
  | |- context [bind ?m ?k w] => destruct (bind m k w) as [[resp|e0] w0] eqn:Hbody
  end; [done|].
  intros [= <- <-]. split; [by eexists|].
  unfold bind, verify_refresh, lift, User_findById, ret, throw in Hbody.
  repeat (cbv beta iota zeta in Hbody;
          match type of Hbody with
          | context [generateAccessAndRefreshTokens ?a ?b ?i ?w1] =>
              let Hi := fresh "Hissue" in
              destruct (generateAccessAndRefreshTokens a b i w1) as [[tk|e1] w1'] eqn:Hi;
              [|apply generateAccessAndRefreshTokens_failure in Hi as [_ ->]]
          | context [match ?x with _ => _ end] => destruct x eqn:?
          end; try discriminate Hbody).
  all: try (by injection Hbody as _ <-).
  all: apply generateAccessAndRefreshTokens_pair in Hissue as [m ->]; discriminate.
Qed.

(** X10. The refresh operation answers 401 when no token is supplied, when
    the token does not verify, when it names no stored user, and when it is
    not the token stored for its user; in each case nothing is written. *)
Theorem refreshAccessToken_rejections (req : request) (w : world) :
  (JS.truthy (field_of (cookies req) "refreshToken") = false ->
   JS.truthy (field_of (body req) "refreshToken") = false ->
   refresh req w = (Thrown (ApiError 401 "Unauthorized request"), w)) /\
  (forall t, field_of (cookies req) "refreshToken" = VStr t -> t <> "" ->
     (jwt_verify t = None ->
      refresh req w = (Thrown (ApiError 401 "Invalid refresh token"), w)) /\
     (forall payload, jwt_verify t = Some payload ->
        Store.findById (JS.get_opt (VObj payload) "_id") (users w) = VNull ->
        refresh req w = (Thrown (ApiError 401 "Invalid refresh token"), w)) /\
     (forall payload u, jwt_verify t = Some payload ->
        Store.findById (JS.get_opt (VObj payload) "_id") (users w) = VObj u ->
        field_of u "refreshToken" <> VStr t ->
        refresh req w = (Thrown (ApiError 401 "Invalid refresh token"), w))).
Proof.
  split.
  - intros Hcookie Hbody. unfold refresh, refreshAccessToken, JS.or_else.
    rewrite Hcookie. by rewrite Hbody.
  - intros t Hcookie Ht.
    split; [|split].
    + intros Hverify. unfold refresh, refreshAccessToken. cbv zeta. rewrite Hcookie.
      unfold JS.or_else. rewrite !(truthy_VStr t Ht). cbn [negb].
      unfold try_catch, bind, verify_refresh, lift. by rewrite Hverify.
    + intros payload Hverify Hnone. unfold refresh, refreshAccessToken. cbv zeta.
      rewrite Hcookie. unfold JS.or_else. rewrite !(truthy_VStr t Ht). cbn [negb].
      unfold try_catch, bind, verify_refresh, lift, User_findById, throw.
      by rewrite Hverify, Hnone.
    + intros payload u Hverify Hfind Hstale.
      by apply (refreshAccessToken_stale jwt_verify generateAccessToken generateRefreshToken
                  req w t payload u).
Qed.

Lemma loginUser_start (req : request) :
  identified req = true ->
  negb (JS.truthy (field_of (body req) "username"))
    && negb (JS.truthy (field_of (body req) "email")) = false.
Proof. unfold identified. by destruct (JS.truthy _), (JS.truthy _). Qed.


(** X12. A login that fails, for whatever reason, leaves the world as it
    was: no refresh token is stored for a login that did not succeed. *)
Theorem loginUser_failure_writes_nothing (req : request) (w w' : world) (e : exn) :
  login req w = (Thrown e, w') -> w' = w.
Proof.
  unfold login, loginUser. cbv zeta. intros H.
  unfold bind, User_findOne_or, call_isPasswordCorrect, lift, User_findById, ret, throw in H.
  repeat (cbv beta iota zeta in H;
          match type of H with
          | context [generateAccessAndRefreshTokens ?a ?b ?i ?w1] =>
              let Hi := fresh "Hissue" in
              destruct (generateAccessAndRefreshTokens a b i w1) as [[tk|e1] w1'] eqn:Hi;
              [|apply generateAccessAndRefreshTokens_failure in Hi as [_ ->]]
          | context [match ?x with _ => _ end] => destruct x eqn:?
          end; try discriminate H).
  all: try (by injection H as _ <-).
  all: apply generateAccessAndRefreshTokens_pair in Hissue as [m ->]; discriminate.
Qed.

Lemma loginUser_run (req : request) (w : world) (u : doc) (uid : N) :
  identified req = true ->
  login_query req w = VObj u ->
  isPasswordCorrect u (field_of (body req) "password") = Returned true ->
  Store.findById (VId uid) (users w) = VObj u ->
  let access := VStr (generateAccessToken u (clock w)) in
  let token := VStr (generateRefreshToken u (clock w)) in
  let u' := <["refreshToken" := token]> u in
  exists l1 l2,
    users w = (l1 ++ u :: l2)%list /\
    Store.findById (VId uid) (l1 ++ u' :: l2)%list = VObj u' /\
    login req w =
      (Returned
         (Response 200
            [SetCookie "accessToken" access true true;
             SetCookie "refreshToken" token true true]
            (new_ApiResponse 200
               (VObj (<["user" := VObj (delete "password" (delete "refreshToken" u'))]>
                        (<["accessToken" := access]> (<["refreshToken" := token]> ∅))))
               "User logged in successfully")),
       with_users w (l1 ++ u' :: l2)%list (next_id w)).
Proof.
  intros Hid Hfound Hpass Hfind access token u'.
  destruct (generateAccessAndRefreshTokens_found generateAccessToken generateRefreshToken
              uid w u Hfind) as (l1 & l2 & Hw & Hgen & Hnew).
  assert (Hu : u !! "_id" = Some (VId uid)).
  { apply has_id_VId, (find_has_id _ (users w)). by apply findById_VObj. }
  exists l1, l2. split; [done|]. split; [exact Hnew|].
  unfold login, loginUser. cbv zeta. rewrite (loginUser_start req Hid).
  unfold bind, User_findOne_or, call_isPasswordCorrect, lift, User_findById, ret.
  unfold login_query in Hfound. rewrite Hfound. cbn [JS.truthy negb]. rewrite Hpass.
  cbn [negb JS.get]. rewrite Hu. cbn [default from_option id]. rewrite Hgen.
  cbn [JS.get users with_users]. rewrite !lookup_insert_eq.
  rewrite lookup_insert_ne, lookup_insert_eq by done. cbn [default from_option id].
  unfold u', token, access. rewrite Hnew. reflexivity.
Qed.

(** X13. A login with a matching user and a correct password answers 200,
    stores a freshly signed refresh token on the user's record and on no
    other, and hands the same two tokens to the caller in http-only, secure
    cookies and in the body, next to the user's record without its password
    and refresh-token fields. *)
Theorem loginUser_issues_session (req : request) (w : world) (u : doc) (uid : N) :
  identified req = true ->
  login_query req w = VObj u ->
  isPasswordCorrect u (field_of (body req) "password") = Returned true ->
  Store.findById (VId uid) (users w) = VObj u ->
  let access := VStr (generateAccessToken u (clock w)) in
  let token := VStr (generateRefreshToken u (clock w)) in
  let u' := <["refreshToken" := token]> u in
  let (result, w') := login req w in
  (exists l1 l2, users w = (l1 ++ u :: l2)%list /\ users w' = (l1 ++ u' :: l2)%list) /\
  Store.findById (VId uid) (users w') = VObj u' /\
  exists resp sanitized,
    result = Returned resp /\ status resp = 200%Z /\
    cookie_ops resp =
      [SetCookie "accessToken" access true true;
       SetCookie "refreshToken" token true true] /\
    JS.get_opt (data (json resp)) "accessToken" = access /\
    JS.get_opt (data (json resp)) "refreshToken" = token /\
    JS.get_opt (data (json resp)) "user" = VObj sanitized /\
    sanitized !! "password" = None /\ sanitized !! "refreshToken" = None /\
    (forall k, k <> "password" -> k <> "refreshToken" -> sanitized !! k = u !! k).
Proof.
  intros Hid Hfound Hpass Hfind access token u'.
  destruct (loginUser_run req w u uid Hid Hfound Hpass Hfind)
    as (l1 & l2 & Hw & Hnew & ->).
  split; [by exists l1, l2|]. split; [exact Hnew|].
  eexists _, (delete "password" (delete "refreshToken" u')).
  split; [reflexivity|]. split; [done|]. split; [done|].
  cbn [data json new_ApiResponse JS.get_opt].
  split. { by rewrite lookup_insert_ne, lookup_insert_eq by done. }
  split. { by rewrite !lookup_insert_ne, lookup_insert_eq by done. }
  split. { by rewrite lookup_insert_eq. }
  split; [apply lookup_delete_eq|].
  split. { rewrite lookup_delete_ne by done. apply lookup_delete_eq. }
  intros k Hk1 Hk2. unfold u'. by rewrite !lookup_delete_ne, lookup_insert_ne by done.
Qed.

(** X14. The refresh token that a login hands out is accepted by the
    refresh operation right afterwards, provided the verifier decodes it to
    the user's id. *)
Theorem login_then_refresh_accepted (req req' : request) (w : world) (u payload : doc)
    (uid : N) :
  identified req = true ->
  login_query req w = VObj u ->
  isPasswordCorrect u (field_of (body req) "password") = Returned true ->
  Store.findById (VId uid) (users w) = VObj u ->
  field_of (cookies req') "refreshToken" = VStr (generateRefreshToken u (clock w)) ->
  generateRefreshToken u (clock w) <> "" ->
  jwt_verify (generateRefreshToken u (clock w)) = Some payload ->
  payload !! "_id" = Some (VId uid) ->
  exists resp w'', refresh req' (login req w).2 = (Returned resp, w'') /\ status resp = 200%Z.
Proof.
  intros Hid Hfound Hpass Hfind Hcookie Hne Hverify Hpayload.
  destruct (loginUser_run req w u uid Hid Hfound Hpass Hfind)
    as (l1 & l2 & Hw & Hnew & ->). cbn [snd].
  destruct (refreshAccessToken_run req'
              (with_users w
                 (l1 ++ <["refreshToken" := VStr (generateRefreshToken u (clock w))]> u :: l2)
                 (next_id w))
              (generateRefreshToken u (clock w)) payload
              (<["refreshToken" := VStr (generateRefreshToken u (clock w))]> u) uid)
    as (l1' & l2' & resp & _ & Hrun & Hstatus & _); try done.
  { by rewrite lookup_insert_eq. }
  by eexists _, _.
Qed.

(** X15. A login ends the session before it: the refresh token that was
    stored for the user until then is rejected afterwards, as long as the
    signer has produced a different token. *)
Theorem login_then_previous_token_rejected (req req' : request) (w : world)
    (u payload : doc) (uid : N) (t : string) :
  identified req = true ->
  login_query req w = VObj u ->
  isPasswordCorrect u (field_of (body req) "password") = Returned true ->
  Store.findById (VId uid) (users w) = VObj u ->
  field_of (cookies req') "refreshToken" = VStr t ->
  t <> "" ->
  jwt_verify t = Some payload ->
  payload !! "_id" = Some (VId uid) ->
  generateRefreshToken u (clock w) <> t ->
  let w' := (login req w).2 in
  refresh req' w' = (Thrown (ApiError 401 "Invalid refresh token"), w').
Proof.
  intros Hid Hfound Hpass Hfind Hcookie Ht Hverify Hpayload Hfresh.
  destruct (loginUser_run req w u uid Hid Hfound Hpass Hfind)
    as (l1 & l2 & Hw & Hnew & ->). cbn [snd].
  apply (refreshAccessToken_stale jwt_verify generateAccessToken generateRefreshToken req' _ t
           payload (<["refreshToken" := VStr (generateRefreshToken u (clock w))]> u));
    try done.
  - cbn [JS.get_opt]. rewrite Hpayload. exact Hnew.
  - unfold field_of. rewrite lookup_insert_eq. cbn. congruence.
Qed.

End SessionFacts.

Lemma generateAccessAndRefreshTokens_unknown_user_witness :
  generateAccessAndRefreshTokens Sample.signAccess Sample.signRefresh (VId 99) Sample.w0 =
    (Thrown (ApiError 500 "Something went wrong while generating refresh and access tokens"),
     Sample.w0).
Proof.
  apply (generateAccessAndRefreshTokens_unknown_user Sample.signAccess Sample.signRefresh
           (VId 99) Sample.w0).
  reflexivity.
Defined.

Lemma refreshAccessToken_failure_writes_nothing_witness :
  match refreshAccessToken Sample.verify Sample.signAccess Sample.signRefresh
          (Sample.with_cookie "forged") Sample.w0 with
  | (Thrown e, w') => (exists m, e = ApiError 401 m) /\ w' = Sample.w0
  | (Returned _, _) => False
  end.
Proof.
  destruct (refreshAccessToken Sample.verify Sample.signAccess Sample.signRefresh
              (Sample.with_cookie "forged") Sample.w0) as [[resp|e] w'] eqn:Hrun.
  - vm_compute in Hrun. discriminate Hrun.
  - exact (refreshAccessToken_failure_writes_nothing _ _ _ _ _ _ _ Hrun).
Defined.

Lemma refreshAccessToken_rejections_witness :
  let refresh := refreshAccessToken Sample.verify Sample.signAccess Sample.signRefresh in
  refresh (Sample.with_body ∅) Sample.w0
    = (Thrown (ApiError 401 "Unauthorized request"), Sample.w0) /\
  refresh (Sample.with_cookie "forged") Sample.w0
    = (Thrown (ApiError 401 "Invalid refresh token"), Sample.w0) /\
  refresh (Sample.with_cookie "refresh-1") Sample.w_bob_only
    = (Thrown (ApiError 401 "Invalid refresh token"), Sample.w_bob_only) /\
  refresh (Sample.with_cookie "refresh-1") Sample.w_rotated
    = (Thrown (ApiError 401 "Invalid refresh token"), Sample.w_rotated).
Proof.
  intros refresh. split; [|split; [|split]].
  - apply (refreshAccessToken_rejections Sample.verify Sample.signAccess Sample.signRefresh
             (Sample.with_body ∅) Sample.w0); reflexivity.
  - apply (proj1 (proj2 (refreshAccessToken_rejections Sample.verify Sample.signAccess
                           Sample.signRefresh (Sample.with_cookie "forged") Sample.w0)
                    "forged" eq_refl ltac:(discriminate))).
    reflexivity.
  - apply (proj1 (proj2 (proj2 (refreshAccessToken_rejections Sample.verify
                                  Sample.signAccess Sample.signRefresh
                                  (Sample.with_cookie "refresh-1") Sample.w_bob_only)
                           "refresh-1" eq_refl ltac:(discriminate)))
             (Sample.obj [("_id", VId 1)])); reflexivity.
  - apply (proj2 (proj2 (proj2 (refreshAccessToken_rejections Sample.verify
                                  Sample.signAccess Sample.signRefresh
                                  (Sample.with_cookie "refresh-1") Sample.w_rotated)
                           "refresh-1" eq_refl ltac:(discriminate)))
             (Sample.obj [("_id", VId 1)])
             (<["refreshToken" := VStr "refresh-9"]> Sample.alice)).
    + reflexivity.
    + reflexivity.
    + vm_compute. discriminate.
Defined.


Lemma loginUser_failure_writes_nothing_witness :
  match loginUser Sample.check Sample.signAccess Sample.signRefresh
          (Sample.with_body (Sample.obj [("username", VStr "alice"); ("password", VStr "x")]))
          Sample.w0 with
  | (Thrown _, w') => w' = Sample.w0
  | (Returned _, _) => False
  end.
Proof.
  destruct (loginUser Sample.check Sample.signAccess Sample.signRefresh
              (Sample.with_body (Sample.obj [("username", VStr "alice"); ("password", VStr "x")]))
              Sample.w0) as [[resp|e] w'] eqn:Hrun.
  - vm_compute in Hrun. discriminate Hrun.
  - exact (loginUser_failure_writes_nothing _ _ _ _ _ _ _ Hrun).
Defined.

Lemma loginUser_issues_session_witness :
  let u' := <["refreshToken" := VStr "refresh-1b"]> Sample.alice in
  let (result, w') :=
    loginUser Sample.check Sample.signAccess Sample.signRefreshFor Sample.login_alice
      Sample.w0 in
  (exists l1 l2, users Sample.w0 = (l1 ++ Sample.alice :: l2)%list /\
     users w' = (l1 ++ u' :: l2)%list) /\
  Store.findById (VId 1) (users w') = VObj u' /\
  exists resp sanitized,
    result = Returned resp /\ status resp = 200%Z /\
    cookie_ops resp =
      [SetCookie "accessToken" (VStr "access-2") true true;
       SetCookie "refreshToken" (VStr "refresh-1b") true true] /\
    JS.get_opt (data (json resp)) "accessToken" = VStr "access-2" /\
    JS.get_opt (data (json resp)) "refreshToken" = VStr "refresh-1b" /\
    JS.get_opt (data (json resp)) "user" = VObj sanitized /\
    sanitized !! "password" = None /\ sanitized !! "refreshToken" = None /\
    (forall k, k <> "password" -> k <> "refreshToken" -> sanitized !! k = Sample.alice !! k).
Proof.
  apply (loginUser_issues_session Sample.check Sample.signAccess Sample.signRefreshFor
           Sample.login_alice Sample.w0 Sample.alice 1%N); reflexivity.
Defined.

Lemma login_then_refresh_accepted_witness :
  exists resp w'',
    refreshAccessToken Sample.verifyIssued Sample.signAccess Sample.signRefreshFor
      (Sample.with_cookie "refresh-1b")
      (loginUser Sample.check Sample.signAccess Sample.signRefreshFor Sample.login_alice
         Sample.w0).2
    = (Returned resp, w'') /\ status resp = 200%Z.
Proof.
  apply (login_then_refresh_accepted Sample.check Sample.verifyIssued Sample.signAccess
           Sample.signRefreshFor Sample.login_alice (Sample.with_cookie "refresh-1b")
           Sample.w0 Sample.alice (Sample.obj [("_id", VId 1)]) 1%N);
    first [reflexivity | discriminate].
Defined.

Lemma login_then_previous_token_rejected_witness :
  let w' :=
    (loginUser Sample.check Sample.signAccess Sample.signRefreshFor Sample.login_alice
       Sample.w0).2 in
  refreshAccessToken Sample.verifyIssued Sample.signAccess Sample.signRefreshFor
    (Sample.with_cookie "refresh-1") w'
  = (Thrown (ApiError 401 "Invalid refresh token"), w').
Proof.
  apply (login_then_previous_token_rejected Sample.check Sample.verifyIssued
           Sample.signAccess Sample.signRefreshFor Sample.login_alice
           (Sample.with_cookie "refresh-1") Sample.w0 Sample.alice
           (Sample.obj [("_id", VId 1)]) 1%N "refresh-1");
    first [reflexivity | discriminate].
Defined.

Lemma refresh_then_previous_rejected_witness :
  let w' :=
    (refreshAccessToken Sample.verify Sample.signAccess Sample.signRefresh
       Sample.refresh_request Sample.w0).2 in
  refreshAccessToken Sample.verify Sample.signAccess Sample.signRefresh
    Sample.refresh_request w'
  = (Thrown (ApiError 401 "Invalid refresh token"), w').
Proof.
  apply (refresh_then_previous_rejected Sample.verify Sample.signAccess Sample.signRefresh
           Sample.refresh_request Sample.w0 "refresh-1" (Sample.obj [("_id", VId 1)])
           Sample.alice 1%N); first [reflexivity | discriminate].
Defined.

(** ** Logout: edges *)

Lemma update_first_absent (id : value) (f : doc -> doc) (ds : list doc) :
  find (Store.has_id id) ds = None -> Store.update_first id f ds = ds.
Proof.
  induction ds as [|x rest IH]; simpl; [done|].
  destruct (Store.has_id id x); [done|]. intros H. by rewrite IH.
Qed.

Lemma findById_VNull (id : value) (ds : list doc) :
  Store.findById id ds = VNull <-> find (Store.has_id id) ds = None.
Proof. unfold Store.findById. destruct (find _ ds); split; intros H; by simplify_eq. Qed.

Lemma has_id_set_fields (id : value) (sets : list (string * value)) (d : doc) :
  Forall (fun kv => kv.1 <> "_id") sets ->
  Store.has_id id (Store.set_fields sets d) = Store.has_id id d.
Proof.
  unfold Store.set_fields. revert d.
  induction sets as [|[k v] sets IH]; intros d Hsets; simpl; [done|].
  apply Forall_cons in Hsets as [Hk Hsets]. rewrite IH by done.
  unfold Store.has_id, Store.matches. simpl in Hk. by rewrite write_lookup_ne.
Qed.

Lemma update_first_twice (id : value) (f : doc -> doc) (ds : list doc) :
  (forall d, Store.has_id id (f d) = Store.has_id id d) ->
  (forall d, f (f d) = f d) ->
  Store.update_first id f (Store.update_first id f ds) = Store.update_first id f ds.
Proof.
  intros Hid Hidem. induction ds as [|x rest IH]; simpl; [done|].
  destruct (Store.has_id id x) eqn:Hx; simpl.
  - by rewrite Hid, Hx, Hidem.
  - by rewrite Hx, IH.
Qed.

(** X18. Logging out a user whose record is no longer stored is a silent
    no-op: the answer is still 200 with both cookies cleared, and the world
    is left as it was. *)
Theorem logoutUser_unknown_user (req : request) (w : world) (u : doc) :
  user req = VObj u ->
  Store.findById (field_of u "_id") (users w) = VNull ->
  logoutUser req w =
    (Returned (Response 200
                 [ClearCookie "accessToken" true true; ClearCookie "refreshToken" true true]
                 (new_ApiResponse 200 (VObj ∅) "User logged out successfully")), w).
Proof.
  intros Hreq Hnone. unfold logoutUser, bind, lift, ret, User_findByIdAndUpdate.
  rewrite Hreq. cbn [JS.get]. fold (field_of u "_id").
  rewrite update_first_absent by by apply findById_VNull.
  by rewrite with_users_same.
Qed.

Lemma logoutUser_unknown_user_witness :
  logoutUser (Sample.as_alice VUndef ∅) Sample.w_bob_only =
    (Returned (Response 200
                 [ClearCookie "accessToken" true true; ClearCookie "refreshToken" true true]
                 (new_ApiResponse 200 (VObj ∅) "User logged out successfully")),
     Sample.w_bob_only).
Proof.
  apply (logoutUser_unknown_user (Sample.as_alice VUndef ∅) Sample.w_bob_only
           (foldr delete Sample.alice ["password"; "refreshToken"])); reflexivity.
Defined.

(** X19. Logout is idempotent: a second logout of the same request gives
    the same answer and leaves the world that the first one produced. *)
Theorem logoutUser_idempotent (req : request) (w : world) :
  let (result, w') := logoutUser req w in
  logoutUser req w' = (result, w').
Proof.
  unfold logoutUser, bind, lift, ret, User_findByIdAndUpdate.
  destruct (JS.get (user req) "_id") as [uid|e]; [|done].
  cbn [users next_id with_users].
  rewrite update_first_twice.
  - by destruct w.
  - intros d. by apply has_id_set_fields, Forall_cons.
  - intros d. by rewrite !set_one_field, !write_undefined.
Qed.

Section LogoutFacts.

Variable jwt_verify : string -> option doc.
Variables generateAccessToken generateRefreshToken : doc -> N -> string.

(** X17. A logout does not end the session on the server: the refresh
    token that was stored for the user before the logout is still accepted
    by the refresh operation after it. *)
Theorem logout_then_refresh_still_accepted (req req' : request) (w : world)
    (u d payload : doc) (uid : N) (t : string) :
  user req = VObj u ->
  u !! "_id" = Some (VId uid) ->
  Store.findById (VId uid) (users w) = VObj d ->
  d !! "refreshToken" = Some (VStr t) ->
  field_of (cookies req') "refreshToken" = VStr t ->
  t <> "" ->
  jwt_verify t = Some payload ->
  payload !! "_id" = Some (VId uid) ->
  exists resp w'',
    refreshAccessToken jwt_verify generateAccessToken generateRefreshToken req'
      (logoutUser req w).2 = (Returned resp, w'') /\
    status resp = 200%Z.
Proof.
  intros _ _ Hfind Htoken Hcookie Ht Hverify Hpayload.
  rewrite logoutUser_keeps_world.
  destruct (refreshAccessToken_run jwt_verify generateAccessToken generateRefreshToken req' w
              t payload d uid Hcookie Ht Hverify Hpayload Hfind Htoken)
    as (l1 & l2 & resp & _ & Hrun & Hstatus & _).
  by eexists _, _.
Qed.

End LogoutFacts.

Lemma logout_then_refresh_still_accepted_witness :
  exists resp w'',
    refreshAccessToken Sample.verify Sample.signAccess Sample.signRefresh
      Sample.refresh_request (logoutUser (Sample.as_alice VUndef ∅) Sample.w0).2
    = (Returned resp, w'') /\
    status resp = 200%Z.
Proof.
  apply (logout_then_refresh_still_accepted Sample.verify Sample.signAccess
           Sample.signRefresh (Sample.as_alice VUndef ∅) Sample.refresh_request Sample.w0
           (foldr delete Sample.alice ["password"; "refreshToken"]) Sample.alice
           (Sample.obj [("_id", VId 1)]) 1%N "refresh-1");
    first [reflexivity | discriminate].
Defined.

(** ** Password change and account details *)

Lemma update_first_split_strong (id : value) (ds : list doc) (d : doc) :
  find (Store.has_id id) ds = Some d ->
  exists l1 l2, ds = (l1 ++ d :: l2)%list /\
    Forall (fun x => Store.has_id id x = false) l1 /\
    forall f, Store.update_first id f ds = (l1 ++ f d :: l2)%list.
Proof.
  induction ds as [|x rest IH]; simpl; [done|].
  destruct (Store.has_id id x) eqn:Hx.
  - intros [= ->]. exists [], rest. split; [done|]. split; [done|]. intros f. done.
  - intros Hfind. destruct (IH Hfind) as (l1 & l2 & -> & Hl1 & Hup).
    exists (x :: l1), l2. split; [done|]. split; [by constructor|].
    intros f. simpl. by rewrite Hup.
Qed.

Lemma find_first_after (A : Type) (f : A -> bool) (l1 l2 : list A) (x : A) :
  Forall (fun y => f y = false) l1 -> f x = true -> find f (l1 ++ x :: l2) = Some x.
Proof.
  intros Hl1 Hx. induction Hl1 as [|y l1 Hy _ IH]; simpl; [by rewrite Hx|by rewrite Hy].
Qed.


Section PasswordFacts.

Variable isPasswordCorrect : doc -> value -> outcome bool.
Variable hashPassword : value -> value.

Let change := changeCurrentPassword isPasswordCorrect hashPassword.

(** X20. A password change is rejected with 401 when the old password does
    not pass the check, and ends in a TypeError, not in an API error, when
    the caller's record is no longer stored; in both cases nothing is
    written. *)
Theorem changeCurrentPassword_rejections (req : request) (w : world) :
  (forall d, Store.findById (JS.get_opt (user req) "_id") (users w) = VObj d ->
     isPasswordCorrect d (field_of (body req) "oldPassword") = Returned false ->
     change req w = (Thrown (ApiError 401 "Invalid old password"), w)) /\
  (Store.findById (JS.get_opt (user req) "_id") (users w) = VNull ->
   change req w =
     (Thrown (TypeError "Cannot read properties of null (reading 'isPasswordCorrect')"), w)).
Proof.
  split.
  - intros d Hfind Hwrong.
    unfold change, changeCurrentPassword, bind, User_findById, call_isPasswordCorrect, lift.
    by rewrite Hfind, Hwrong.
  - intros Hnone.
    unfold change, changeCurrentPassword, bind, User_findById, call_isPasswordCorrect, lift.
    by rewrite Hnone.
Qed.

Lemma changeCurrentPassword_run (req : request) (w : world) (d : doc) (uid : N) :
  JS.get_opt (user req) "_id" = VId uid ->
  Store.findById (VId uid) (users w) = VObj d ->
  isPasswordCorrect d (field_of (body req) "oldPassword") = Returned true ->
  let d' := <["password" := hashPassword (field_of (body req) "newPassword")]> d in
  exists l1 l2,
    users w = (l1 ++ d :: l2)%list /\
    Forall (fun x => Store.has_id (VId uid) x = false) l1 /\
    change req w =
      (Returned (Response 200 []
                   (new_ApiResponse 200 (VObj ∅) "Password changed successfully")),
       with_users w (l1 ++ d' :: l2)%list (next_id w)).
Proof.
  intros Hreq Hfind Hok d'.
  pose proof Hfind as Hfind'. apply findById_VObj in Hfind'.
  assert (Hd : d !! "_id" = Some (VId uid)) by by apply has_id_VId, (find_has_id _ (users w)).
  destruct (update_first_split_strong _ _ _ Hfind') as (l1 & l2 & Hw & Hl1 & Hup).
  exists l1, l2. split; [done|]. split; [done|].
  unfold change, changeCurrentPassword, bind, User_findById, call_isPasswordCorrect, lift,
    User_save, ret.
  rewrite Hreq, Hfind, Hok. cbn [negb]. fold d'.
  replace (default VNull (d' !! "_id")) with (VId uid).
  2: { unfold d'. by rewrite lookup_insert_ne, Hd. }
  by rewrite Hup.
Qed.

(** X21. A password change with the right old password answers 200 and
    rewrites the caller's record in place with only the password field
    replaced, by the hash of the new password.  Every other field, the
    stored refresh token included, and every other record are unchanged. *)
Theorem changeCurrentPassword_replaces_password (req : request) (w : world) (d : doc)
    (uid : N) :
  JS.get_opt (user req) "_id" = VId uid ->
  Store.findById (VId uid) (users w) = VObj d ->
  isPasswordCorrect d (field_of (body req) "oldPassword") = Returned true ->
  let (result, w') := change req w in
  (exists resp, result = Returned resp /\ status resp = 200%Z /\ data (json resp) = VObj ∅) /\
  exists d' l1 l2,
    users w = (l1 ++ d :: l2)%list /\ users w' = (l1 ++ d' :: l2)%list /\
    d' !! "password" = Some (hashPassword (field_of (body req) "newPassword")) /\
    (forall k, k <> "password" -> d' !! k = d !! k) /\
    d' !! "refreshToken" = d !! "refreshToken".
Proof.
  intros Hreq Hfind Hok.
  destruct (changeCurrentPassword_run req w d uid Hreq Hfind Hok)
    as (l1 & l2 & Hw & _ & ->).
  split; [by eexists|]. eexists _, l1, l2. split; [done|]. split; [reflexivity|].
  split; [by rewrite lookup_insert_eq|].
  split; [intros k Hk|]; by rewrite lookup_insert_ne.
Qed.

Variable jwt_verify : string -> option doc.
Variables generateAccessToken generateRefreshToken : doc -> N -> string.

(** X22. A password change does not end the session: the refresh token
    that was stored for the user before the change is still accepted by the
    refresh operation after it. *)
Theorem changeCurrentPassword_keeps_session (req req' : request) (w : world)
    (d payload : doc) (uid : N) (t : string) :
  JS.get_opt (user req) "_id" = VId uid ->
  Store.findById (VId uid) (users w) = VObj d ->
  isPasswordCorrect d (field_of (body req) "oldPassword") = Returned true ->
  d !! "refreshToken" = Some (VStr t) ->
  field_of (cookies req') "refreshToken" = VStr t ->
  t <> "" ->
  jwt_verify t = Some payload ->
  payload !! "_id" = Some (VId uid) ->
  exists resp w'',
    refreshAccessToken jwt_verify generateAccessToken generateRefreshToken req'
      (change req w).2 = (Returned resp, w'') /\
    status resp = 200%Z.
Proof.
  intros Hreq Hfind Hok Htoken Hcookie Ht Hverify Hpayload.
  destruct (changeCurrentPassword_run req w d uid Hreq Hfind Hok)
    as (l1 & l2 & Hw & Hl1 & ->). cbn [snd].
  set (d' := <["password" := hashPassword (field_of (body req) "newPassword")]> d).
  assert (Hd : d !! "_id" = Some (VId uid)).
  { apply has_id_VId, (find_has_id _ (users w)). by apply findById_VObj. }
  destruct (refreshAccessToken_run jwt_verify generateAccessToken generateRefreshToken req'
              (with_users w (l1 ++ d' :: l2) (next_id w)) t payload d' uid)
    as (l1' & l2' & resp & _ & Hrun & Hstatus & _); try done.
  - apply findById_VObj, find_first_after; [done|].
    apply has_id_VId. unfold d'. by rewrite lookup_insert_ne.
  - unfold d'. by rewrite lookup_insert_ne.
  - by eexists _, _.
Qed.

End PasswordFacts.

(** An account-details update is rejected with 400 when the full name
    is missing or empty, and with 400 when the full name is given and the
    email is missing or empty; nothing is written. *)
Theorem changeAccountDetails_rejections (req : request) (w : world) :
  (JS.truthy (field_of (body req) "fullName") = false ->
   changeAccountDetails req w =
     (Thrown (ApiError 400 "Please provide full name to update"), w)) /\
  (JS.truthy (field_of (body req) "fullName") = true ->
   JS.truthy (field_of (body req) "email") = false ->
   changeAccountDetails req w =
     (Thrown (ApiError 400 "Please provide email to update"), w)).
Proof.
  split.
  - intros Hname. unfold changeAccountDetails. by rewrite Hname.
  - intros Hname Hemail. unfold changeAccountDetails. by rewrite Hname, Hemail.
Qed.


(** X25. An account-details update for a caller whose record is no longer
    stored is not an error: it answers 200 with null data and changes
    nothing. *)
Theorem changeAccountDetails_unknown_user (req : request) (w : world) :
  JS.truthy (field_of (body req) "fullName") = true ->
  JS.truthy (field_of (body req) "email") = true ->
  Store.findById (JS.get_opt (user req) "_id") (users w) = VNull ->
  changeAccountDetails req w =
    (Returned (Response 200 []
                 (new_ApiResponse 200 VNull "User details updated successfully")), w).
Proof.
  intros Hname Hemail Hnone.
  unfold changeAccountDetails, bind, ret, User_findByIdAndUpdate.
  rewrite Hname, Hemail. cbn [negb].
  rewrite update_first_absent by by apply findById_VNull.
  by rewrite Hnone, with_users_same.
Qed.

Lemma find_first_unique (P : doc -> bool) (id : value) (l1 l2 : list doc) (d : doc) :
  Forall (fun x => Store.has_id id x = false) l1 ->
  Store.has_id id d = true ->
  find P (l1 ++ d :: l2) = Some d ->
  Forall (fun x => P x = false) l1 /\ P d = true.
Proof.
  intros Hl1 Hd. induction Hl1 as [|y l1 Hy _ IH]; simpl.
  - destruct (P d) eqn:HP; [done|]. intros Hfind. apply find_some in Hfind as [_ ?]. congruence.
  - destruct (P y) eqn:HPy.
    + intros [= ->]. congruence.
    + intros Hfind. destruct (IH Hfind). split; [by constructor|done].
Qed.

Section PasswordThenLogin.

Variable isPasswordCorrect : doc -> value -> outcome bool.
Variable hashPassword : value -> value.
Variables generateAccessToken generateRefreshToken : doc -> N -> string.

(** The comparison accepts a candidate whose hash is the stored one. *)
Hypothesis accepts_hash : forall d p,
  d !! "password" = Some (hashPassword p) -> isPasswordCorrect d p = Returned true.

(** X23. After a password change, a login that names the same user with
    the new password succeeds. *)
Theorem changeCurrentPassword_then_login (req req' : request) (w : world) (d : doc)
    (uid : N) :
  JS.get_opt (user req) "_id" = VId uid ->
  Store.findById (VId uid) (users w) = VObj d ->
  isPasswordCorrect d (field_of (body req) "oldPassword") = Returned true ->
  identified req' = true ->
  login_query req' w = VObj d ->
  field_of (body req') "password" = field_of (body req) "newPassword" ->
  exists resp w'',
    loginUser isPasswordCorrect generateAccessToken generateRefreshToken req'
      (changeCurrentPassword isPasswordCorrect hashPassword req w).2
      = (Returned resp, w'') /\
    status resp = 200%Z.
Proof.
  intros Hreq Hfind Hok Hid Hquery Hnew.
  destruct (changeCurrentPassword_run isPasswordCorrect hashPassword req w d uid Hreq Hfind Hok)
    as (l1 & l2 & Hw & Hl1 & ->). cbn [snd].
  set (d' := <["password" := hashPassword (field_of (body req) "newPassword")]> d).
  assert (Hd : Store.has_id (VId uid) d = true).
  { apply (find_has_id _ (users w)). by apply findById_VObj. }
  assert (Hd' : Store.has_id (VId uid) d' = true).
  { apply has_id_VId. unfold d'. rewrite lookup_insert_ne by done. by apply has_id_VId. }
  unfold login_query, Store.findOne_or in Hquery. rewrite Hw in Hquery.
  destruct (find _ (l1 ++ d :: l2)) as [x|] eqn:Hx; [|done].
  injection Hquery as ->.
  destruct (find_first_unique _ (VId uid) l1 l2 d Hl1 Hd Hx) as [Hbefore Hmatch].
  destruct (loginUser_run isPasswordCorrect generateAccessToken generateRefreshToken req'
              (with_users w (l1 ++ d' :: l2) (next_id w)) d' uid)
    as (l1' & l2' & _ & _ & Hrun); try done.
  - unfold login_query, Store.findOne_or. cbn [users with_users].
    rewrite (find_first_after _ _ l1 l2 d'); [done|done|].
    cbn [existsb fst snd] in *. unfold Store.matches, d' in *.
    by rewrite !lookup_insert_ne.
  - apply accepts_hash. rewrite Hnew. unfold d'. by rewrite lookup_insert_eq.
  - cbn [users with_users]. by apply findById_VObj, find_first_after.
  - rewrite Hrun. by eexists _, _.
Qed.

End PasswordThenLogin.

(** ** Channel profile: errors and projection *)

(** X26. The profile handler answers 400 when the route carries no
    username and 404 when no stored user has the lower-cased username;
    neither changes the world. *)
Theorem getUserChannelProfile_rejections unicode_lower (req : request) (w : world) :
  (JS.truthy (field_of (params req) "username") = false ->
   getUserChannelProfile unicode_lower req w
     = (Thrown (ApiError 400 "Please provide a username"), w)) /\
  (forall name, params req !! "username" = Some (VStr name) -> name <> "" ->
     find (Store.matches "username" (VStr (JS.lower unicode_lower name))) (users w) = None ->
     getUserChannelProfile unicode_lower req w = (Thrown (ApiError 404 "Channel not found"), w)).
Proof.
  split.
  - intros Hnone. unfold getUserChannelProfile. by rewrite Hnone.
  - intros name Hname Hne Hfind.
    unfold getUserChannelProfile, field_of. rewrite Hname. cbn [default from_option id].
    rewrite (truthy_VStr name Hne). cbn [negb].
    unfold bind, lift, User_aggregate, JS.toLowerCase_opt. cbn [JS.nullish JS.toLowerCase].
    rewrite channel_pipeline_total.
    set (named := Store.matches "username" (VStr (JS.lower unicode_lower name))) in *.
    assert (Hempty : List.filter named (users w) = []).
    { destruct (List.filter _ _) as [|x rest] eqn:Hf; [done|].
      assert (Hin : In x (List.filter named (users w))) by (rewrite Hf; by left).
      apply filter_In in Hin as [Hin Hx].
      pose proof (find_none _ _ Hfind x Hin). congruence. }
    by rewrite Hempty.
Qed.

(** X27. Whatever the profile handler returns, the view carries no field
    outside the projection and the id: in particular no password, no refresh
    token, no watch history and neither of the joined edge lists.  The world
    is left as it was. *)
Theorem getUserChannelProfile_projects unicode_lower (req : request) (w w' : world)
    (resp : response) :
  getUserChannelProfile unicode_lower req w = (Returned resp, w') ->
  w' = w /\
  exists view, data (json resp) = VObj view /\
    (forall k, k ∉ "_id" :: channel_projection -> view !! k = None) /\
    view !! "password" = None /\ view !! "refreshToken" = None /\
    view !! "watchHistory" = None /\
    view !! "subscribers" = None /\ view !! "subscribedTo" = None.
Proof.
  unfold getUserChannelProfile.
  destruct (negb (JS.truthy _)); [done|].
  unfold bind, lift, User_aggregate, throw, ret.
  destruct (JS.toLowerCase_opt _) as [lowered|e]; [|done].
  rewrite channel_pipeline_total.
  destruct (List.filter _ (users w)) as [|d rest]; [done|]. csimpl.
  intros [= <- <-]. split; [done|]. eexists. split; [reflexivity|].
  assert (Hout : forall k, k ∉ "_id" :: channel_projection ->
            channel_view (JS.get_opt (user req) "_id") w d !! k = None).
  { intros k Hk. unfold channel_view. apply map_lookup_filter_None. right.
    intros x _. exact Hk. }
  split; [exact Hout|].
  repeat split; apply Hout; intros Hin; vm_compute in Hin;
    repeat (apply elem_of_cons in Hin as [Hin|Hin]; [discriminate Hin|]);
    by apply elem_of_nil in Hin.
Qed.

(** ** The first version of the register handler *)

(** X29. In the first version of the register handler the cover image is
    read without a guard: a registration that passes the checks and carries
    an avatar but no cover image throws a TypeError there, before anything
    is uploaded or stored. *)
Theorem first_registerUser_needs_cover_image cloud hashPassword unicode_lower
    (req : request) (w : world) (fs : doc) (l : list value) :
  some_blank (register_fields req) = Returned false ->
  JS.truthy (existing_user req w) = false ->
  files req = VObj fs ->
  fs !! "avatar" = Some (VArr l) ->
  fs !! "coverImage" = None ->
  FirstController.registerUser cloud hashPassword unicode_lower req w =
    (Thrown (TypeError "Cannot read properties of undefined (reading '0')"), w).
Proof.
  intros Hvalid Hfresh Hfiles Havatar Hcover.
  unfold FirstController.registerUser, bind, lift, User_findOne_or.
  unfold register_fields in Hvalid. rewrite Hvalid.
  unfold existing_user in Hfresh. rewrite Hfresh. rewrite Hfiles.
  unfold avatar_path, obind. cbn [JS.nullish JS.get]. rewrite Havatar.
  cbn [default from_option id JS.index].
  unfold FirstController.coverImage_path, obind. cbn [JS.nullish JS.get].
  by rewrite Hcover.
Qed.

(** X30. The two versions of the register handler agree on every request
    that carries no uploaded-files object at all, and on every request whose
    files carry a cover-image entry with a first file. *)
Theorem registerUser_versions_agree cloud hashPassword unicode_lower (req : request)
    (w : world) :
  (JS.nullish (files req) = true ->
   FirstController.registerUser cloud hashPassword unicode_lower req w
     = registerUser cloud hashPassword unicode_lower req w) /\
  (forall fs f rest, files req = VObj fs ->
     fs !! "coverImage" = Some (VArr (VObj f :: rest)) ->
     FirstController.registerUser cloud hashPassword unicode_lower req w
       = registerUser cloud hashPassword unicode_lower req w).
Proof.
  split.
  - intros Hnone.
    assert (Hsame : FirstController.coverImage_path (files req)
                    = coverImage_path (files req)).
    { unfold FirstController.coverImage_path, coverImage_path. rewrite Hnone.
      by destruct (files req). }
    unfold FirstController.registerUser, registerUser. by rewrite Hsame.
  - intros fs f rest Hfiles Hcover.
    assert (Hsame : FirstController.coverImage_path (files req)
                    = coverImage_path (files req)).
    { rewrite Hfiles. unfold FirstController.coverImage_path, coverImage_path, obind.
      cbn [JS.nullish JS.truthy JS.get JS.get_opt]. rewrite Hcover.
      reflexivity. }
    unfold FirstController.registerUser, registerUser. by rewrite Hsame.
Qed.

Lemma changeCurrentPassword_rejections_witness :
  changeCurrentPassword Sample.check Sample.hash Sample.wrong_old_password Sample.w0
    = (Thrown (ApiError 401 "Invalid old password"), Sample.w0) /\
  changeCurrentPassword Sample.check Sample.hash Sample.change_password Sample.w_bob_only
    = (Thrown (TypeError "Cannot read properties of null (reading 'isPasswordCorrect')"),
       Sample.w_bob_only).
Proof.
  split.
  - apply (proj1 (changeCurrentPassword_rejections Sample.check Sample.hash
                    Sample.wrong_old_password Sample.w0) Sample.alice); reflexivity.
  - apply (changeCurrentPassword_rejections Sample.check Sample.hash Sample.change_password
             Sample.w_bob_only). reflexivity.
Defined.

Lemma changeCurrentPassword_replaces_password_witness :
  let (result, w') :=
    changeCurrentPassword Sample.check Sample.hash Sample.change_password Sample.w0 in
  (exists resp, result = Returned resp /\ status resp = 200%Z /\ data (json resp) = VObj ∅) /\
  exists d' l1 l2,
    users Sample.w0 = (l1 ++ Sample.alice :: l2)%list /\ users w' = (l1 ++ d' :: l2)%list /\
    d' !! "password"
      = Some (Sample.hash (field_of (body Sample.change_password) "newPassword")) /\
    (forall k, k <> "password" -> d' !! k = Sample.alice !! k) /\
    d' !! "refreshToken" = Sample.alice !! "refreshToken".
Proof.
  apply (changeCurrentPassword_replaces_password Sample.check Sample.hash
           Sample.change_password Sample.w0 Sample.alice 1%N); reflexivity.
Defined.

Lemma changeCurrentPassword_keeps_session_witness :
  exists resp w'',
    refreshAccessToken Sample.verify Sample.signAccess Sample.signRefresh
      Sample.refresh_request
      (changeCurrentPassword Sample.check Sample.hash Sample.change_password Sample.w0).2
    = (Returned resp, w'') /\
    status resp = 200%Z.
Proof.
  apply (changeCurrentPassword_keeps_session Sample.check Sample.hash Sample.verify
           Sample.signAccess Sample.signRefresh Sample.change_password
           Sample.refresh_request Sample.w0 Sample.alice (Sample.obj [("_id", VId 1)])
           1%N "refresh-1"); first [reflexivity | discriminate].
Defined.

Lemma sample_check_accepts (d : doc) (p : value) :
  d !! "password" = Some (Sample.hash p) -> Sample.check d p = Returned true.
Proof.
  intros Hd. unfold Sample.check, field_of. rewrite Hd. cbn [default from_option id].
  destruct p; simpl; try done. by rewrite bool_decide_eq_true_2.
Defined.

Lemma changeCurrentPassword_then_login_witness :
  exists resp w'',
    loginUser Sample.check Sample.signAccess Sample.signRefresh Sample.login_alice_fresh
      (changeCurrentPassword Sample.check Sample.hash Sample.change_password Sample.w0).2
      = (Returned resp, w'') /\
    status resp = 200%Z.
Proof.
  apply (changeCurrentPassword_then_login Sample.check Sample.hash Sample.signAccess
           Sample.signRefresh sample_check_accepts Sample.change_password
           Sample.login_alice_fresh Sample.w0 Sample.alice 1%N); reflexivity.
Defined.

Lemma changeAccountDetails_rejections_witness :
  changeAccountDetails (Sample.alice_body (Sample.obj [("email", VStr "a2@example.org")]))
      Sample.w0
    = (Thrown (ApiError 400 "Please provide full name to update"), Sample.w0) /\
  changeAccountDetails
      (Sample.alice_body (Sample.obj [("fullName", VStr "Alice A."); ("email", VStr "")]))
      Sample.w0
    = (Thrown (ApiError 400 "Please provide email to update"), Sample.w0).
Proof.
  split.
  - apply (changeAccountDetails_rejections
             (Sample.alice_body (Sample.obj [("email", VStr "a2@example.org")])) Sample.w0).
    reflexivity.
  - apply (changeAccountDetails_rejections
             (Sample.alice_body
                (Sample.obj [("fullName", VStr "Alice A."); ("email", VStr "")])) Sample.w0);
      reflexivity.
Defined.


Lemma changeAccountDetails_unknown_user_witness :
  changeAccountDetails Sample.new_details Sample.w_bob_only =
    (Returned (Response 200 []
                 (new_ApiResponse 200 VNull "User details updated successfully")),
     Sample.w_bob_only).
Proof.
  apply (changeAccountDetails_unknown_user Sample.new_details Sample.w_bob_only);
    reflexivity.
Defined.

Lemma getUserChannelProfile_rejections_witness :
  getUserChannelProfile Sample.unicode_lower (Sample.with_body ∅) Sample.w0
    = (Thrown (ApiError 400 "Please provide a username"), Sample.w0) /\
  getUserChannelProfile Sample.unicode_lower
      (Request ∅ VUndef VUndef ∅ (Sample.obj [("username", VStr "Nobody")]) VUndef) Sample.w0
    = (Thrown (ApiError 404 "Channel not found"), Sample.w0).
Proof.
  split.
  - apply (getUserChannelProfile_rejections Sample.unicode_lower (Sample.with_body ∅)
             Sample.w0). reflexivity.
  - apply (proj2 (getUserChannelProfile_rejections Sample.unicode_lower
                    (Request ∅ VUndef VUndef ∅ (Sample.obj [("username", VStr "Nobody")])
                       VUndef) Sample.w0) "Nobody");
      first [reflexivity | discriminate].
Defined.

Lemma getUserChannelProfile_projects_witness :
  match getUserChannelProfile Sample.unicode_lower Sample.bob_views_alice Sample.w0 with
  | (Returned resp, w') =>
      w' = Sample.w0 /\
      exists view, data (json resp) = VObj view /\
        (forall k, k ∉ "_id" :: channel_projection -> view !! k = None) /\
        view !! "password" = None /\ view !! "refreshToken" = None /\
        view !! "watchHistory" = None /\
        view !! "subscribers" = None /\ view !! "subscribedTo" = None
  | (Thrown _, _) => False
  end.
Proof.
  destruct (getUserChannelProfile Sample.unicode_lower Sample.bob_views_alice Sample.w0)
    as [[resp|e] w'] eqn:Hrun.
  - exact (getUserChannelProfile_projects _ _ _ _ _ Hrun).
  - vm_compute in Hrun. discriminate Hrun.
Defined.

Lemma route_channel_profile_never_subscribed_witness :
  exists resp view,
    route_channel_profile Sample.unicode_lower Sample.bob_views_alice Sample.w0
      = (Returned resp, Sample.w0) /\
    data (json resp) = VObj view /\
    view !! "isSubscribed" = Some (VBool false).
Proof.
  apply (route_channel_profile_never_subscribed Sample.unicode_lower Sample.bob_views_alice
           Sample.w0 "Alice" Sample.alice 1%N); try reflexivity; try discriminate.
  intros e He. apply list_elem_of_singleton in He as ->. by exists 2%N.
Defined.

Lemma first_registerUser_needs_cover_image_witness :
  FirstController.registerUser Sample.cloud_up Sample.hash Sample.unicode_lower
      Sample.register_carol Sample.w0 =
    (Thrown (TypeError "Cannot read properties of undefined (reading '0')"), Sample.w0).
Proof.
  apply (first_registerUser_needs_cover_image Sample.cloud_up Sample.hash Sample.unicode_lower
           Sample.register_carol
           Sample.w0
           (Sample.obj [("avatar", VArr [VObj (Sample.obj [("path", VStr Sample.staged)])])])
           [VObj (Sample.obj [("path", VStr Sample.staged)])]); reflexivity.
Defined.

Lemma registerUser_versions_agree_witness :
  FirstController.registerUser Sample.cloud_up Sample.hash Sample.unicode_lower
      Sample.register_no_files Sample.w0
    = registerUser Sample.cloud_up Sample.hash Sample.unicode_lower Sample.register_no_files
        Sample.w0 /\
  FirstController.registerUser Sample.cloud_up Sample.hash Sample.unicode_lower
      Sample.register_two_files Sample.w_two_files
    = registerUser Sample.cloud_up Sample.hash Sample.unicode_lower Sample.register_two_files
        Sample.w_two_files.
Proof.
  split.
  - apply (registerUser_versions_agree Sample.cloud_up Sample.hash Sample.unicode_lower
             Sample.register_no_files Sample.w0). reflexivity.
  - apply (proj2 (registerUser_versions_agree Sample.cloud_up Sample.hash Sample.unicode_lower
                    Sample.register_two_files
                    Sample.w_two_files)
             (Sample.obj [("avatar", VArr [VObj (Sample.obj [("path", VStr Sample.staged)])]);
                          ("coverImage",
                           VArr [VObj (Sample.obj [("path", VStr Sample.cover_file)])])])
             (Sample.obj [("path", VStr Sample.cover_file)]) []); reflexivity.
Defined.
